(** * A shallow embedding of [scripts/scrape_docs.py]

    The scraper is a sequential pipeline (fetch, clean, extract, convert,
    annotate, write) driven by [scrape_all].  The embedding keeps the shape
    of the Python code: every method of [ClaudeCodeDocsScraper] is a
    definition of the same name, written in a small state-and-exception
    monad over a [World] that holds the file system, the statistics
    dictionary [self.stats] and the trace of observable events (log records,
    console output, HTTP requests and sleeps).

    The third-party libraries (requests, BeautifulSoup, markdownify), the
    clock and the operating system are not part of the repository; they are
    gathered in the interface [Env]. *)

From Stdlib Require Import ZArith NArith String Ascii DecimalString List Lia.
From stdpp Require Import base option list strings gmap.

Local Open Scope string_scope.

(** ** Python values used by the script *)

(** Exceptions.  [KeyboardInterrupt] and [SystemExit] derive from
    [BaseException] only; every other class below derives from
    [Exception].  [RequestException] stands for
    [requests.exceptions.RequestException] and its subclasses
    (connection errors, timeouts, [HTTPError]). *)
Inductive exn : Type :=
| KeyboardInterrupt
| SystemExit (code : Z)
| ZeroDivisionError
| OSError (msg : string)
| RequestException (msg : string)
| OtherException (msg : string).

Definition is_Exception (e : exn) : bool :=
  match e with
  | KeyboardInterrupt | SystemExit _ => false
  | _ => true
  end.

Definition is_RequestException (e : exn) : bool :=
  match e with
  | RequestException _ => true
  | _ => false
  end.

Inductive result (A : Type) : Type :=
| Ok (a : A)
| Raise (e : exn).
Arguments Ok {A} a.
Arguments Raise {A} e.

(** A naive [datetime] value, as [datetime.now()] returns it. *)
Record DateTime : Type := mkDateTime {
  dt_year : nat; dt_month : nat; dt_day : nat;
  dt_hour : nat; dt_minute : nat; dt_second : nat
}.

Definition digit (n : nat) : string :=
  String (ascii_of_nat (48 + n mod 10)) EmptyString.

Definition pad2 (n : nat) : string := digit (n / 10) +:+ digit n.

Definition pad4 (n : nat) : string :=
  digit (n / 1000) +:+ digit (n / 100) +:+ digit (n / 10) +:+ digit n.

(** [dt.strftime("%Y-%m-%d %H:%M:%S UTC")]: the suffix [UTC] is literal text
    of the format string. *)
Definition strftime_utc_label (dt : DateTime) : string :=
  pad4 (dt_year dt) +:+ "-" +:+ pad2 (dt_month dt) +:+ "-" +:+ pad2 (dt_day dt)
  +:+ " " +:+ pad2 (dt_hour dt) +:+ ":" +:+ pad2 (dt_minute dt) +:+ ":"
  +:+ pad2 (dt_second dt) +:+ " UTC".

(** A [requests.Response]: the status line and the body. *)
Record Response : Type := mkResponse {
  status_code : Z;
  content : string
}.

(** [Response.raise_for_status] raises [HTTPError] for 4xx and 5xx. *)
Definition is_http_error (r : Response) : bool :=
  ((400 <=? status_code r) && (status_code r <? 600))%Z.

(** [Response.__bool__] is [Response.ok]: true unless [raise_for_status]
    would raise. *)
Definition response_ok (r : Response) : bool := negb (is_http_error r).

(** ** Configuration ([config.yaml]) *)

Record SectionCfg : Type := mkSection {
  name : string;
  url_suffix : string;
  filename : string;
  description : string
}.

(** [delay_between_requests] and [timeout] are durations; they are only
    handed to [time.sleep] and [session.get]. *)
Record ScrapingCfg : Type := mkScraping {
  user_agent : string;
  timeout : N;
  retries : Z;
  delay_between_requests : N;
  remove_elements : list string;
  content_selectors : list string
}.

(** The three flags are read with [dict.get(key, True)]: an absent key
    ([None]) counts as [True]. *)
Record OutputCfg : Type := mkOutput {
  docs_folder : string;
  index_file : string;
  add_section_headers : option bool;
  add_source_url : option bool;
  add_timestamp : option bool
}.

Record Config : Type := mkConfig {
  base_url : string;
  sections : list SectionCfg;
  scraping : ScrapingCfg;
  output : OutputCfg
}.

Definition get_flag (o : option bool) : bool := default true o.

(** Truthiness of an optional string argument ([args.section]): [None] and
    the empty string are false. *)
Definition truthy (o : option string) : bool :=
  match o with
  | None => false
  | Some s => negb (String.eqb s "")
  end.

(** ** Observable events *)

Inductive level : Type := DEBUG | INFO | WARNING | ERROR.

(** The log records of the script, one constructor per call site, holding
    the values interpolated into the message. *)
Inductive log_msg : Type :=
| MsgRequesting (url : string) (attempt total : Z)
| MsgFetchFailed (url : string) (attempts : Z) (e : exn)
| MsgAttemptFailed (attempt : Z) (url : string) (e : exn)
| MsgFoundContent (selector : string)
| MsgNoContentFound
| MsgScraping (section : string)
| MsgNoContentExtracted (section : string)
| MsgConvertFailed (section : string) (e : exn)
| MsgSaved (path : string)
| MsgSaveFailed (path : string) (e : exn)
| MsgCreatedIndex (path : string)
| MsgSectionNotFound (section_filter : string)
| MsgStarting (n : nat)
| MsgProcessing (i n : nat) (section : string)
| MsgStatsHeader
| MsgStatsTotal (n : nat)
| MsgStatsSuccessful (n : nat)
| MsgStatsFailed (n : nat)
| MsgStatsRate (successful total : nat)
| MsgStatsDuration (start_time end_time : DateTime)
| MsgStatsFooter.

Inductive event : Type :=
| EvLog (lv : level) (m : log_msg)
| EvPrint (s : string)
| EvGet (url : string) (tmo : N)
| EvSleep (d : N).

(** ** The state threaded through a run *)

(** [self.stats]. *)
Record Stats : Type := mkStats {
  total_sections : nat;
  successful_scrapes : nat;
  failed_scrapes : nat;
  start_time : DateTime
}.

Record World : Type := mkWorld {
  fs : gmap string string;   (* files: path to text *)
  trace : list event;        (* events so far, oldest first *)
  stats : Stats;
  gets_done : nat;           (* HTTP requests issued so far *)
  clock_reads : nat          (* readings of the clock so far *)
}.

Definition with_fs (f : gmap string string) (w : World) : World :=
  mkWorld f (trace w) (stats w) (gets_done w) (clock_reads w).
Definition with_trace (t : list event) (w : World) : World :=
  mkWorld (fs w) t (stats w) (gets_done w) (clock_reads w).
Definition with_stats (s : Stats) (w : World) : World :=
  mkWorld (fs w) (trace w) s (gets_done w) (clock_reads w).
Definition with_gets_done (n : nat) (w : World) : World :=
  mkWorld (fs w) (trace w) (stats w) n (clock_reads w).
Definition with_clock_reads (n : nat) (w : World) : World :=
  mkWorld (fs w) (trace w) (stats w) (gets_done w) n.

(** ** The monad: state and exceptions *)

Definition M (A : Type) : Type := World -> result A * World.

Definition ret {A} (a : A) : M A := fun w => (Ok a, w).

Definition bind {A B} (m : M A) (k : A -> M B) : M B :=
  fun w =>
    match m w with
    | (Ok a, w') => k a w'
    | (Raise e, w') => (Raise e, w')
    end.

Definition raise {A} (e : exn) : M A := fun w => (Raise e, w).

(** [try: m except C as e: h e], where [catches] decides membership in the
    class [C]. *)
Definition try_except {A} (m : M A) (catches : exn -> bool) (h : exn -> M A) : M A :=
  fun w =>
    match m w with
    | (Ok a, w') => (Ok a, w')
    | (Raise e, w') => if catches e then h e w' else (Raise e, w')
    end.

Declare Scope py_scope.
Delimit Scope py_scope with py.
Notation "x <- m ;; k" := (bind m (fun x => k))
  (at level 100, m at next level, right associativity) : py_scope.
Notation "m ;;; k" := (bind m (fun _ => k))
  (at level 100, right associativity) : py_scope.
Local Open Scope py_scope.

Definition emit (e : event) : M unit :=
  fun w => (Ok tt, with_trace (trace w ++ [e]) w).

Definition log (lv : level) (m : log_msg) : M unit := emit (EvLog lv m).
Definition print (s : string) : M unit := emit (EvPrint s).

(** [time.sleep(d)]. *)
Definition sleep (d : N) : M unit := emit (EvSleep d).

Definition incr_successful : M unit :=
  fun w =>
    let s := stats w in
    (Ok tt, with_stats (mkStats (total_sections s) (S (successful_scrapes s))
                                (failed_scrapes s) (start_time s)) w).

Definition incr_failed : M unit :=
  fun w =>
    let s := stats w in
    (Ok tt, with_stats (mkStats (total_sections s) (successful_scrapes s)
                                (S (failed_scrapes s)) (start_time s)) w).

Definition set_total (n : nat) : M unit :=
  fun w =>
    let s := stats w in
    (Ok tt, with_stats (mkStats n (successful_scrapes s)
                                (failed_scrapes s) (start_time s)) w).

(** What can go wrong when a file is opened for writing and written:
    [open] itself raises (the file is left as it was), or [open] succeeds,
    which truncates the file, and the write or the flush at close raises
    after [written] characters reached the file. *)
Inductive write_fault : Type :=
| NoFault
| OpenFails (e : exn)
| WriteFails (written : nat) (e : exn).

(** [range(n)] for a Python integer [n]. *)
Definition range (n : Z) : list Z := seqZ 0 n.

(** [chr(10)], and ['\n'.join(lines)]. *)
Definition LF : string := String (ascii_of_nat 10) EmptyString.
Definition join_lines (lines : list string) : string := String.concat LF lines.

(** What reading and parsing the configuration file yields: the parsed
    document, [FileNotFoundError], [yaml.YAMLError], or another exception
    raised by [open]. *)
Inductive yaml_file : Type :=
| YamlLoaded (c : Config)
| YamlNotFound
| YamlError (msg : string)
| YamlRaises (e : exn).

(** [str(e)] for an exception [e]. *)
Definition exn_str (e : exn) : string :=
  match e with
  | KeyboardInterrupt => ""
  | SystemExit c => NilZero.string_of_int (Z.to_int c)
  | ZeroDivisionError => "division by zero"
  | OSError msg | RequestException msg | OtherException msg => msg
  end.

(** ** The scraper *)

(** The world outside the repository, as one interface. *)
Class Env : Type := mkEnv {
  (** BeautifulSoup: documents, elements, [BeautifulSoup(bytes,
      'html.parser')], [soup.select(selector)] (the matches in document
      order, for a selector the CSS engine accepts), [element.decompose()]
      and [str(element)]. *)
  Soup : Type;
  Tag : Type;
  BeautifulSoup : string -> Soup;
  select : Soup -> string -> list Tag;
  decompose : Tag -> Soup -> Soup;
  tag_str : Tag -> string;
  (** markdownify's [md]; it may raise. *)
  md : string -> result string;
  (** [session.get(url, timeout=...)]: what the [k]-th request of the run
      yields, a response or an exception. *)
  session_get : nat -> string -> result Response;
  (** [time.time()] at the [k]-th reading of the clock, and the two
      conversions of an instant to calendar fields: in the machine's local
      time zone and in UTC. *)
  clock : nat -> Z;
  localtime : Z -> DateTime;
  gmtime : Z -> DateTime;
  (** Faults of the file system, per path; [pathlib]'s [dir / file]; the
      outcome of [Path(dir).mkdir(exist_ok=True)]; the configuration file
      found at a path. *)
  fs_fault : string -> write_fault;
  path_join : string -> string -> string;
  mkdir_fault : string -> option exn;
  read_yaml : string -> yaml_file
}.

Section Environment.

Context {E : Env}.

Section Methods.

(** [self.config]. *)
Variable cfg : Config.

(** [soup.select_one(selector)]: the first match or [None]. *)
Definition select_one (soup : Soup) (selector : string) : option Tag :=
  head (select soup selector).

(** [datetime.now()] is [datetime.fromtimestamp(time.time())]: the
    instant read from the clock, in local time. *)
Definition datetime_now : M DateTime :=
  fun w =>
    (Ok (localtime (clock (clock_reads w))),
     with_clock_reads (S (clock_reads w)) w).

(** [with open(path, 'w', encoding='utf-8') as f: f.write(text)]. *)
Definition write_text (path text : string) : M unit :=
  fun w =>
    match fs_fault path with
    | NoFault => (Ok tt, with_fs (<[path := text]> (fs w)) w)
    | OpenFails e => (Raise e, w)
    | WriteFails n e =>
        (Raise e, with_fs (<[path := String.substring 0 n text]> (fs w)) w)
    end.

(** [self.session.get(...)] followed by [response.raise_for_status()]. *)
Definition get_checked (url : string) : M Response :=
  fun w =>
    let w' := with_gets_done (S (gets_done w))
                (with_trace (trace w ++ [EvGet url (timeout (scraping cfg))]) w) in
    match session_get (gets_done w) url with
    | Ok r =>
        if is_http_error r
        then (Raise (RequestException "HTTPError"), w')
        else (Ok r, w')
    | Raise e => (Raise e, w')
    end.

(** *** [_make_request] (lines 92-116) *)

(** The body of [for attempt in range(retries + 1)], over the attempts
    still to run. *)
Fixpoint _make_request_loop (url : string) (retries : Z) (attempts : list Z)
  : M (option Response) :=
  match attempts with
  | [] => ret None
  | attempt :: rest =>
      log DEBUG (MsgRequesting url (attempt + 1) (retries + 1)) ;;;
      try_except
        (response <- get_checked url ;;
         ret (Some response))
        is_RequestException
        (fun e =>
           if (attempt =? retries)%Z
           then
             log ERROR (MsgFetchFailed url (retries + 1) e) ;;;
             ret None
           else
             log WARNING (MsgAttemptFailed (attempt + 1) url e) ;;;
             sleep (delay_between_requests (scraping cfg)) ;;;
             _make_request_loop url retries rest)
  end.

Definition _make_request (url : string) (retries_arg : option Z)
  : M (option Response) :=
  let r := match retries_arg with
           | None => retries (scraping cfg)
           | Some r => r
           end in
  _make_request_loop url r (range (r + 1)).

(** *** [_clean_html] (lines 118-125) *)

Definition _clean_html (soup : Soup) : Soup :=
  fold_left
    (fun soup selector =>
       fold_left (fun soup element => decompose element soup)
                 (select soup selector) soup)
    (remove_elements (scraping cfg)) soup.

(** *** [_extract_content] (lines 127-136) *)

(** [if content:] tests a [Tag], whose [__bool__] is always true, so the
    test only tells a match from [None]. *)
Fixpoint _extract_content_loop (soup : Soup) (selectors : list string)
  : M (option Tag) :=
  match selectors with
  | [] =>
      log WARNING MsgNoContentFound ;;;
      ret None
  | selector :: rest =>
      match select_one soup selector with
      | Some content =>
          log DEBUG (MsgFoundContent selector) ;;;
          ret (Some content)
      | None => _extract_content_loop soup rest
      end
  end.

Definition _extract_content (soup : Soup) : M (option Tag) :=
  _extract_content_loop soup (content_selectors (scraping cfg)).

(** *** [_convert_to_markdown] (lines 138-162) *)

Definition lift_result {A} (r : result A) : M A := fun w => (r, w).

Definition _convert_to_markdown (html_content : string) (section : SectionCfg)
  : M string :=
  markdown <- lift_result (md html_content) ;;
  let output_config := output cfg in
  let markdown :=
    if get_flag (add_section_headers output_config)
    then
      let header := "# " +:+ description section +:+ LF +:+ LF in
      header +:+ markdown
    else markdown in
  let markdown :=
    if get_flag (add_source_url output_config)
    then
      let source_url := base_url cfg +:+ url_suffix section in
      let source_note :=
        LF +:+ LF +:+ "---" +:+ LF +:+ LF +:+ "*Source: " +:+ source_url
        +:+ "*" +:+ LF in
      markdown +:+ source_note
    else markdown in
  if get_flag (add_timestamp output_config)
  then
    now <- datetime_now ;;
    let timestamp := strftime_utc_label now in
    let timestamp_note := "*Last updated: " +:+ timestamp +:+ "*" +:+ LF in
    ret (markdown +:+ timestamp_note)
  else ret markdown.

(** *** [scrape_section] (lines 164-210) *)

(** Lines 197-210: save the rendered document. *)
Definition save_markdown (output_file markdown : string) : M bool :=
  try_except
    (write_text output_file markdown ;;;
     log INFO (MsgSaved output_file) ;;;
     incr_successful ;;;
     ret true)
    is_Exception
    (fun e =>
       log ERROR (MsgSaveFailed output_file e) ;;;
       incr_failed ;;;
       ret false).

Definition scrape_section (section : SectionCfg) : M bool :=
  log INFO (MsgScraping (name section)) ;;;
  let url := base_url cfg +:+ url_suffix section in
  response <- _make_request url None ;;
  match response with
  | None => incr_failed ;;; ret false
  | Some response =>
      if negb (response_ok response)
      then incr_failed ;;; ret false
      else
        let soup := BeautifulSoup (content response) in
        let soup := _clean_html soup in
        content <- _extract_content soup ;;
        match content with
        | None =>
            log ERROR (MsgNoContentExtracted (name section)) ;;;
            incr_failed ;;;
            ret false
        | Some content =>
            converted <-
              try_except
                (markdown <- _convert_to_markdown (tag_str content) section ;;
                 ret (Some markdown))
                is_Exception
                (fun e =>
                   log ERROR (MsgConvertFailed (name section) e) ;;;
                   incr_failed ;;;
                   ret None) ;;
            match converted with
            | None => ret false
            | Some markdown =>
                let output_file :=
                  path_join (docs_folder (output cfg)) (filename section) in
                save_markdown output_file markdown
            end
        end
  end.

(** *** [create_index] (lines 212-246) *)

Definition index_entry (section : SectionCfg) : string :=
  "- **[" +:+ name section +:+ "](" +:+ filename section +:+ ")** - "
  +:+ description section.

Definition index_head (now : DateTime) : list string :=
  [ "# Claude Code Documentation Index";
    "";
    "*Auto-generated documentation index*";
    "";
    "Last updated: " +:+ strftime_utc_label now;
    "";
    "## Available Documentation Sections";
    "" ].

Definition index_tail : list string :=
  [ "";
    "## Usage";
    "";
    "This documentation is scraped automatically from the official Claude Code documentation.";
    "Use these files for offline reference or with Claude Code's `/DOC` command workflow.";
    "";
    "---";
    "";
    "*Generated by Claude Code Documentation Auto-Updater*" ].

Definition create_index : M unit :=
  now <- datetime_now ;;
  let index_content := index_head now in
  let index_content :=
    fold_left
      (fun index_content section => (index_content ++ [index_entry section])%list)
      (sections cfg) index_content in
  let index_content := (index_content ++ index_tail)%list in
  let index_file := path_join (docs_folder (output cfg)) (index_file (output cfg)) in
  write_text index_file (join_lines index_content) ;;;
  log INFO (MsgCreatedIndex index_file).

(** *** [_print_statistics] (lines 279-290) *)

(** The success rate is [successful_scrapes / total_sections * 100]; the
    division raises [ZeroDivisionError] when the divisor is 0, while the
    message is being built. *)
Definition _print_statistics : M unit :=
  end_time <- datetime_now ;;
  fun w =>
    let s := stats w in
    (log INFO MsgStatsHeader ;;;
     log INFO (MsgStatsTotal (total_sections s)) ;;;
     log INFO (MsgStatsSuccessful (successful_scrapes s)) ;;;
     log INFO (MsgStatsFailed (failed_scrapes s)) ;;;
     (if (total_sections s =? 0)%nat
      then raise ZeroDivisionError
      else log INFO (MsgStatsRate (successful_scrapes s) (total_sections s))) ;;;
     log INFO (MsgStatsDuration (start_time s) end_time) ;;;
     log INFO MsgStatsFooter) w.

(** *** [scrape_all] (lines 248-277) *)

(** Lines 263-270: [for i, section in enumerate(sections, 1)], where [n]
    is [len(sections)] and [i] the index of the head of [todo]. *)
Fixpoint scrape_loop (n i : nat) (todo : list SectionCfg) : M unit :=
  match todo with
  | [] => ret tt
  | section :: rest =>
      log INFO (MsgProcessing i n (name section)) ;;;
      success <- scrape_section section ;;
      (if (i <? n)%nat
       then sleep (delay_between_requests (scraping cfg))
       else ret tt) ;;;
      scrape_loop n (S i) rest
  end.

(** Lines 259-270: the Process phase over the selected sections. *)
Definition process_sections (selected : list SectionCfg) : M unit :=
  set_total (length selected) ;;;
  log INFO (MsgStarting (length selected)) ;;;
  scrape_loop (length selected) 1 selected.

(** Lines 272-277: the Finalize phase. *)
Definition finalize (section_filter : option string) : M unit :=
  (if negb (truthy section_filter) then create_index else ret tt) ;;;
  _print_statistics.

(** [[s for s in sections if s['name'] == section_filter]]. *)
Definition select_sections (section_filter : string) : list SectionCfg :=
  List.filter (fun s => String.eqb (name s) section_filter) (sections cfg).

Definition scrape_all (section_filter : option string) : M unit :=
  let all := sections cfg in
  if truthy section_filter
  then
    let wanted := default "" section_filter in
    let selected := select_sections wanted in
    match selected with
    | [] => log ERROR (MsgSectionNotFound wanted)
    | _ :: _ =>
        process_sections selected ;;;
        finalize section_filter
    end
  else
    process_sections all ;;;
    finalize section_filter.

End Methods.

(** *** [_load_config] and [__init__] (lines 33-67) *)

Definition _load_config (config_path : string) : M Config :=
  match read_yaml config_path with
  | YamlLoaded c => ret c
  | YamlNotFound =>
      print ("Error: Configuration file '" +:+ config_path +:+ "' not found.") ;;;
      raise (SystemExit 1)
  | YamlError msg =>
      print ("Error parsing configuration file: " +:+ msg) ;;;
      raise (SystemExit 1)
  | YamlRaises e => raise e
  end.

Definition mkdir (dir : string) : M unit :=
  match mkdir_fault dir with
  | None => ret tt
  | Some e => raise e
  end.

(** The constructor: load the configuration, create the output folder,
    reset the statistics.  (The HTTP session and the logging handlers it
    also sets up appear in the embedding only through [session_get] and
    the trace.) *)
Definition __init__ (config_path : string) : M Config :=
  config <- _load_config config_path ;;
  mkdir (docs_folder (output config)) ;;;
  now <- datetime_now ;;
  (fun w => (Ok tt, with_stats (mkStats 0 0 0 now) w)) ;;;
  ret config.

(** *** [main] (lines 293-331) *)

(** The parsed command line. *)
Record Args : Type := mkArgs {
  arg_config : string;
  arg_section : option string;
  arg_verbose : bool
}.

(** [main] followed by interpreter exit: the exit status of the process
    and the final world.  [--verbose] only changes which log records are
    displayed. *)
Definition main (args : Args) (w : World) : Z * World :=
  match (config <- __init__ (arg_config args) ;;
         scrape_all config (arg_section args)) w with
  | (Ok _, w') => (0%Z, w')
  | (Raise KeyboardInterrupt, w') =>
      (1%Z, snd (print (LF +:+ "Scraping interrupted by user") w'))
  | (Raise (SystemExit code), w') => (code, w')
  | (Raise e, w') =>
      (1%Z, snd (print ("Error: " +:+ exn_str e) w'))
  end.

End Environment.

(** ** A second run on the same inputs *)

(** The environment [E] with another clock and another time zone: what a
    later run on unchanged upstream content sees. *)
Definition with_clock (E : Env) (clock' : nat -> Z) (localtime' : Z -> DateTime)
  : Env :=
  {| Soup := @Soup E; Tag := @Tag E;
     BeautifulSoup := @BeautifulSoup E; select := @select E;
     decompose := @decompose E; tag_str := @tag_str E;
     md := @md E; session_get := @session_get E;
     clock := clock'; localtime := localtime'; gmtime := @gmtime E;
     fs_fault := @fs_fault E; path_join := @path_join E;
     mkdir_fault := @mkdir_fault E; read_yaml := @read_yaml E |}.

(** ** Properties used in the statements *)

(** The statistics as [__init__] leaves them. *)
Definition fresh_stats (w : World) : Prop :=
  total_sections (stats w) = 0 /\
  successful_scrapes (stats w) = 0 /\
  failed_scrapes (stats w) = 0.

(** A request that fails at the network level: [session.get] raises a
    [RequestException], or the response has an error status. *)
Definition request_fails (o : result Response) : Prop :=
  match o with
  | Ok r => is_http_error r = true
  | Raise e => is_RequestException e = true
  end.

(** The requests and sleeps of a trace, without the log records. *)
Definition is_io (e : event) : bool :=
  match e with
  | EvGet _ _ | EvSleep _ => true
  | _ => false
  end.

Definition io_events (evs : list event) : list event := List.filter is_io evs.

(** [w'] extends the trace of [w] by events among which [e] occurs. *)
Definition emitted (e : event) (w w' : World) : Prop :=
  exists evs, trace w' = (trace w ++ evs)%list /\ In e evs.

(** The timestamp annotation of a document rendered at [now]. *)
Definition timestamp_note (now : DateTime) : string :=
  "*Last updated: " +:+ strftime_utc_label now +:+ "*" +:+ LF.

(** Two files that agree except inside the timestamp annotation: a common
    body, each followed by the first [k] characters of its own timestamp
    annotation ([k] is its whole length when the write completed). *)
Definition same_but_timestamp (f1 f2 : option string) : Prop :=
  exists body k now1 now2,
    f1 = Some (body +:+ String.substring 0 k (timestamp_note now1)) /\
    f2 = Some (body +:+ String.substring 0 k (timestamp_note now2)).

(** [wp m Q w]: running [m] from [w] ends, with a value or an exception,
    in a result and a world that satisfy [Q]. *)
Definition wp {A} (m : M A) (Q : result A -> World -> Prop) (w : World) : Prop :=
  Q (fst (m w)) (snd (m w)).

(** The continuation of a postcondition through [bind] and through
    [try_except]. *)
Definition bind_post {A B} (k : A -> M B) (Q : result B -> World -> Prop)
  : result A -> World -> Prop :=
  fun r w =>
    match r with
    | Ok a => wp (k a) Q w
    | Raise e => Q (Raise e) w
    end.

Definition try_post {A} (catches : exn -> bool) (h : exn -> M A)
    (Q : result A -> World -> Prop) : result A -> World -> Prop :=
  fun r w =>
    match r with
    | Ok a => Q (Ok a) w
    | Raise e => if catches e then wp (h e) Q w else Q (Raise e) w
    end.

(** A computation that leaves the files, the statistics and the clock
    alone. *)
Definition quiet (w w' : World) : Prop :=
  fs w' = fs w /\ stats w' = stats w /\ clock_reads w' = clock_reads w.

(** [selectors] splits at its first selector that matches something in
    [soup], and [t] is the first match of that selector. *)
Definition first_match_of {E : Env} (soup : Soup) (selectors : list string) (t : Tag) : Prop :=
  exists pre sel post others,
    selectors = (pre ++ sel :: post)%list /\
    Forall (fun s => select soup s = []) pre /\
    select soup sel = t :: others.

(** The first match of the first selector that matches, as one
    expression: the head of all the match lists laid end to end. *)
Definition first_match {E : Env} (soup : Soup) (selectors : list string)
  : option Tag :=
  head (concat (List.map (select soup) selectors)).

(** The annotations of a rendered document, in the words of the
    specification: the heading before the converted text, the source note
    after it, the timestamp annotation last. *)
Definition header_note (section : SectionCfg) : string :=
  "# " +:+ description section +:+ LF +:+ LF.

Definition source_note (cfg : Config) (section : SectionCfg) : string :=
  LF +:+ LF +:+ "---" +:+ LF +:+ LF +:+ "*Source: "
  +:+ (base_url cfg +:+ url_suffix section) +:+ "*" +:+ LF.

Definition annotated_body (cfg : Config) (section : SectionCfg)
    (converted : string) : string :=
  (if get_flag (add_section_headers (output cfg)) then header_note section else "")
  +:+ converted
  +:+ (if get_flag (add_source_url (output cfg)) then source_note cfg section else "").

Definition timestamp_suffix (cfg : Config) (now : DateTime) : string :=
  if get_flag (add_timestamp (output cfg)) then timestamp_note now else "".

(** What the stages of [scrape_section] before the timestamp and the write
    make of the outcome of the fetch: an exception that escapes, a section
    counted as failed, or the annotated body of the document. *)
Inductive prepared : Type :=
| PrepRaise (e : exn)
| PrepFailed
| PrepBody (body : string).

Definition prepare {E : Env} (cfg : Config) (section : SectionCfg)
    (fetched : result (option Response)) : prepared :=
  match fetched with
  | Raise e => PrepRaise e
  | Ok None => PrepFailed
  | Ok (Some response) =>
      if is_http_error response then PrepFailed
      else
        match first_match (_clean_html cfg (BeautifulSoup (content response)))
                (content_selectors (scraping cfg)) with
        | None => PrepFailed
        | Some t =>
            match md (tag_str t) with
            | Ok converted => PrepBody (annotated_body cfg section converted)
            | Raise e => if is_Exception e then PrepFailed else PrepRaise e
            end
        end
  end.


(** The output file of a section and the index file. *)
Definition output_path {E : Env} (cfg : Config) (section : SectionCfg) : string :=
  path_join (docs_folder (output cfg)) (filename section).

Definition index_path {E : Env} (cfg : Config) : string :=
  path_join (docs_folder (output cfg)) (index_file (output cfg)).

(** [w'] extends the trace of [w] by events that all satisfy [P]. *)
Definition extends (P : event -> Prop) (w w' : World) : Prop :=
  exists evs, trace w' = (trace w ++ evs)%list /\ Forall P evs.

(** Every event that [m] adds to the trace satisfies [P]. *)
Definition emits {A} (P : event -> Prop) (m : M A) : Prop :=
  forall w, extends P w (snd (m w)).

(** An event other than the log record that reports the index file. *)
Definition not_index_event (ev : event) : Prop :=
  forall p, ev <> EvLog INFO (MsgCreatedIndex p).

(** [m] depends on the world only through the number of requests issued
    so far: from two worlds that agree on it, [m] ends with the same result
    and again the same number of requests. *)
Definition uniform {A} (m : M A) : Prop :=
  forall w1 w2,
    gets_done w1 = gets_done w2 ->
    fst (m w1) = fst (m w2) /\ gets_done (snd (m w1)) = gets_done (snd (m w2)).

(** Between two runs, a file that neither run touched, or that holds the
    same document in both up to the timestamp annotation. *)
Definition file_agrees (before1 after1 before2 after2 : option string) : Prop :=
  (after1 = before1 /\ after2 = before2) \/ same_but_timestamp after1 after2.

(** ** Concrete environments *)

Module Demo.

Definition overview : SectionCfg :=
  mkSection "overview" "/overview" "overview.md" "Overview".

Definition hooks : SectionCfg :=
  mkSection "hooks" "/hooks" "hooks.md" "Hooks".

Definition config (secs : list SectionCfg) : Config :=
  mkConfig "https://docs.example.com" secs
    (mkScraping "docs-scraper" 30 2 1 ["nav"] [".missing"; ".real"])
    (mkOutput "docs" "README.md" (Some true) None (Some true)).

Definition page : string :=
  "<nav>menu</nav><main class='real'><h1>Hi</h1></main>".

(** A document is the list of its elements, each with the selector that
    matches it and its HTML text. *)
Definition parse (body : string) : list (string * string) :=
  if String.eqb body page
  then [("nav", "<nav>menu</nav>");
        (".real", "<main class='real'><h1>Hi</h1></main>")]
  else [].

Definition matches (soup : list (string * string)) (selector : string)
  : list (string * string) :=
  List.filter (fun el => String.eqb (fst el) selector) soup.

Definition remove (el : string * string) (soup : list (string * string))
  : list (string * string) :=
  List.filter
    (fun el' => negb (String.eqb (fst el') (fst el) && String.eqb (snd el') (snd el)))
    soup.

Definition to_markdown (html : string) : result string :=
  if String.eqb html "<main class='real'><h1>Hi</h1></main>"
  then Ok ("Hi" +:+ LF +:+ "==" +:+ LF)
  else Ok html.

(** Seconds since midnight of 2025-01-15, within that day. *)
Definition calendar (t : Z) : DateTime :=
  mkDateTime 2025 1 15
    (Z.to_nat ((t / 3600) mod 24)) (Z.to_nat ((t / 60) mod 60)) (Z.to_nat (t mod 60)).

(** Every request answers 200 with [page]. *)
Definition net_up (k : nat) (url : string) : result Response :=
  Ok (mkResponse 200 page).

(** Every request times out. *)
Definition net_down (k : nat) (url : string) : result Response :=
  Raise (RequestException "timed out").

(** Every request is answered with the status [code] and an empty body. *)
Definition net_status (code : Z) (k : nat) (url : string) : result Response :=
  Ok (mkResponse code "").

Definition no_faults (path : string) : write_fault := NoFault.

(** The environment of a machine whose local time is [tz] seconds ahead of
    UTC, with the configuration file [config.yaml] declaring [secs]. *)
Definition env (secs : list SectionCfg) (net : nat -> string -> result Response)
    (faults : string -> write_fault) (tz : Z) : Env :=
  {| Soup := list (string * string); Tag := (string * string)%type;
     BeautifulSoup := parse; select := matches; decompose := remove;
     tag_str := snd; md := to_markdown; session_get := net;
     clock := fun k => (43200 + Z.of_nat k)%Z;
     localtime := fun t => calendar (t + tz);
     gmtime := calendar;
     fs_fault := faults;
     path_join := fun dir file => dir +:+ "/" +:+ file;
     mkdir_fault := fun _ => None;
     read_yaml := fun path =>
       if String.eqb path "config.yaml" then YamlLoaded (config secs)
       else YamlNotFound |}.

Definition w0 : World :=
  mkWorld ∅ [] (mkStats 0 0 0 (mkDateTime 2025 1 15 12 0 0)) 0 0.

(** A world in which an earlier run left [docs/overview.md] behind. *)
Definition w_old : World :=
  with_fs {[ "docs/overview.md" := "# Overview (previous run)" ]} w0.


(** [docs/overview.md] cannot be opened for writing. *)
Definition overview_denied (path : string) : write_fault :=
  if String.eqb path "docs/overview.md"
  then OpenFails (OSError "Permission denied")
  else NoFault.


End Demo.

(** ** More concrete environments *)

Module Samples.

(** The configuration of [Demo] with other retries, remove-selectors and
    timestamp flag. *)
Definition config_with (secs : list SectionCfg) (r : Z) (remove : list string)
    (timestamp : bool) : Config :=
  mkConfig "https://docs.example.com" secs
    (mkScraping "docs-scraper" 30 r 1 remove [".missing"; ".real"])
    (mkOutput "docs" "README.md" (Some true) None (Some timestamp)).

(** The first request times out, the later ones answer. *)
Definition net_flaky (k : nat) (url : string) : result Response :=
  match k with
  | 0 => Raise (RequestException "timed out")
  | S _ => Ok (mkResponse 200 Demo.page)
  end.

(** The user interrupts every request. *)
Definition net_interrupted (k : nat) (url : string) : result Response :=
  Raise KeyboardInterrupt.

(** Every request answers 200 with a page without content region. *)
Definition net_moved (k : nat) (url : string) : result Response :=
  Ok (mkResponse 200 "<p>moved</p>").

End Samples.

(** ** Further properties of traces *)

(** [l] with [sep] between every two consecutive elements. *)
Fixpoint interleave {A} (sep : A) (l : list A) : list A :=
  match l with
  | [] => []
  | [x] => [x]
  | x :: rest => x :: sep :: interleave sep rest
  end.

(** The sections announced by [scrape_section] in a trace, in order. *)
Fixpoint scraped (evs : list event) : list string :=
  match evs with
  | [] => []
  | EvLog INFO (MsgScraping section) :: rest => section :: scraped rest
  | _ :: rest => scraped rest
  end.

(** A log record written by a stage of [scrape_section] after its
    announcement: the fetch, the extraction, the conversion or the write. *)
Definition is_stage_log (ev : event) : bool :=
  match ev with
  | EvLog _ (MsgRequesting _ _ _) | EvLog _ (MsgFetchFailed _ _ _)
  | EvLog _ (MsgAttemptFailed _ _ _) | EvLog _ (MsgFoundContent _)
  | EvLog _ MsgNoContentFound | EvLog _ (MsgNoContentExtracted _)
  | EvLog _ (MsgConvertFailed _ _) | EvLog _ (MsgSaved _)
  | EvLog _ (MsgSaveFailed _ _) => true
  | _ => false
  end.

(** The announcement of a section by [scrape_section]. *)
Definition is_announcement (ev : event) : bool :=
  match ev with
  | EvLog INFO (MsgScraping _) => true
  | _ => false
  end.

(** The request of a section. *)
Definition section_url (cfg : Config) (section : SectionCfg) : string :=
  base_url cfg +:+ url_suffix section.

(** The index file as [create_index] writes it at [now]. *)
Definition index_text (cfg : Config) (now : DateTime) : string :=
  join_lines (index_head now ++ List.map index_entry (sections cfg) ++ index_tail).

(** What [_make_request] makes of an attempt that does not fail at the
    network level: it returns the response, or lets the exception
    through. *)
Definition attempt_result (o : result Response) : result (option Response) :=
  match o with
  | Ok response => Ok (Some response)
  | Raise e => Raise e
  end.

(** * Verification *)

(** ** Rules of the monad *)

Lemma wp_elim {A} (m : M A) (Q : result A -> World -> Prop) w r w' :
  wp m Q w -> m w = (r, w') -> Q r w'.
Proof. unfold wp. intros H Hm. by rewrite Hm in H. Qed.

Lemma wp_run {A} (m : M A) (Q : result A -> World -> Prop) w r w' :
  m w = (r, w') -> wp m Q w -> Q r w'.
Proof. intros Hm H. by eapply wp_elim. Qed.

Lemma wp_mono {A} (m : M A) (Q Q' : result A -> World -> Prop) w :
  wp m Q w -> (forall r w', Q r w' -> Q' r w') -> wp m Q' w.
Proof. unfold wp. auto. Qed.

Lemma wp_ret {A} (a : A) (Q : result A -> World -> Prop) w :
  Q (Ok a) w -> wp (ret a) Q w.
Proof. done. Qed.

Lemma wp_raise {A} (e : exn) (Q : result A -> World -> Prop) w :
  Q (Raise e) w -> wp (raise e) Q w.
Proof. done. Qed.

Lemma wp_bind {A B} (m : M A) (k : A -> M B) (Q : result B -> World -> Prop) w :
  wp m (bind_post k Q) w -> wp (bind m k) Q w.
Proof.
  unfold wp, bind_post, bind.
  destruct (m w) as [[a|e] w']; simpl; auto.
Qed.

Lemma wp_try_except {A} (m : M A) catches (h : exn -> M A)
    (Q : result A -> World -> Prop) w :
  wp m (try_post catches h Q) w -> wp (try_except m catches h) Q w.
Proof.
  unfold wp, try_post, try_except.
  destruct (m w) as [[a|e] w']; simpl; auto.
  destruct (catches e); auto.
Qed.

Lemma wp_emit (e : event) (Q : result unit -> World -> Prop) w :
  Q (Ok tt) (with_trace (trace w ++ [e]) w) -> wp (emit e) Q w.
Proof. done. Qed.

Lemma bind_ok {A B} (m : M A) (k : A -> M B) w a w' :
  m w = (Ok a, w') -> bind m k w = k a w'.
Proof. unfold bind. by intros ->. Qed.

Lemma bind_raise {A B} (m : M A) (k : A -> M B) w e w' :
  m w = (Raise e, w') -> bind m k w = (Raise e, w').
Proof. unfold bind. by intros ->. Qed.

Lemma try_ok {A} (m : M A) catches (h : exn -> M A) w a w' :
  m w = (Ok a, w') -> try_except m catches h w = (Ok a, w').
Proof. unfold try_except. by intros ->. Qed.

Lemma try_caught {A} (m : M A) catches (h : exn -> M A) w e w' :
  m w = (Raise e, w') -> catches e = true -> try_except m catches h w = h e w'.
Proof. unfold try_except. by intros -> ->. Qed.

Lemma try_escapes {A} (m : M A) catches (h : exn -> M A) w e w' :
  m w = (Raise e, w') -> catches e = false ->
  try_except m catches h w = (Raise e, w').
Proof. unfold try_except. by intros -> ->. Qed.

Lemma log_eq lv msg w :
  log lv msg w = (Ok tt, with_trace (trace w ++ [EvLog lv msg]) w).
Proof. reflexivity. Qed.

Lemma bind_inv_ok {A B} (m : M A) (k : A -> M B) w b w' :
  bind m k w = (Ok b, w') ->
  exists a w1, m w = (Ok a, w1) /\ k a w1 = (Ok b, w').
Proof.
  unfold bind. destruct (m w) as [[a|e] w1]; [|done].
  intros H. by exists a, w1.
Qed.

Lemma quiet_trans w1 w2 w3 : quiet w1 w2 -> quiet w2 w3 -> quiet w1 w3.
Proof. unfold quiet. intros (-> & -> & ->) (-> & -> & ->). done. Qed.

Lemma extends_refl P w w' : trace w' = trace w -> extends P w w'.
Proof. intros H. exists []. by rewrite app_nil_r. Qed.

Lemma extends_trans P w1 w2 w3 :
  extends P w1 w2 -> extends P w2 w3 -> extends P w1 w3.
Proof.
  intros (evs1 & H1 & HP1) (evs2 & H2 & HP2).
  exists (evs1 ++ evs2)%list. split.
  - by rewrite H2, H1, <- app_assoc.
  - by apply Forall_app.
Qed.

Lemma emits_ret {A} P (a : A) : emits P (ret a).
Proof. intros w. by apply extends_refl. Qed.

Lemma emits_raise {A} P e : emits P (@raise A e).
Proof. intros w. by apply extends_refl. Qed.

Lemma emits_bind {A B} P (m : M A) (k : A -> M B) :
  emits P m -> (forall a, emits P (k a)) -> emits P (bind m k).
Proof.
  intros Hm Hk w. specialize (Hm w). unfold bind.
  destruct (m w) as [[a|e] w1]; simpl in *; [|done].
  eapply extends_trans; [exact Hm|apply Hk].
Qed.

Lemma emits_try_except {A} P (m : M A) catches (h : exn -> M A) :
  emits P m -> (forall e, emits P (h e)) -> emits P (try_except m catches h).
Proof.
  intros Hm Hh w. specialize (Hm w). unfold try_except.
  destruct (m w) as [[a|e] w1]; simpl in *; [done|].
  destruct (catches e); [|done].
  eapply extends_trans; [exact Hm|apply Hh].
Qed.

Lemma emits_emit (P : event -> Prop) ev : P ev -> emits P (emit ev).
Proof. intros HP w. exists [ev]. split; [done|]. by constructor. Qed.

Lemma emits_log (P : event -> Prop) lv msg : P (EvLog lv msg) -> emits P (log lv msg).
Proof. apply emits_emit. Qed.

Lemma emits_sleep (P : event -> Prop) d : P (EvSleep d) -> emits P (sleep d).
Proof. apply emits_emit. Qed.

Lemma emits_silent {A} P (m : M A) :
  (forall w, trace (snd (m w)) = trace w) -> emits P m.
Proof. intros H w. by apply extends_refl. Qed.

Lemma emits_if {A} P (c : bool) (m1 m2 : M A) :
  emits P m1 -> emits P m2 -> emits P (if c then m1 else m2).
Proof. by destruct c. Qed.

Lemma extends_not_emitted w w' p :
  extends not_index_event w w' ->
  emitted (EvLog INFO (MsgCreatedIndex p)) w w' -> False.
Proof.
  intros (evs & Htr & HP) (evs' & Htr' & Hin).
  rewrite Htr in Htr'. apply app_inv_head in Htr'. subst evs'.
  rewrite Forall_forall in HP. apply list_elem_of_In in Hin.
  by apply (HP _ Hin p).
Qed.

Create HintDb emits.

#[local] Hint Resolve emits_ret emits_raise emits_bind emits_try_except
  emits_log emits_sleep emits_if : emits.

#[local] Hint Extern 1 (not_index_event _) => (intros ? [=]) : emits.

(** Symbolic execution of one step of a monadic program. *)
Ltac wp_step :=
  first
    [ apply wp_ret
    | apply wp_raise
    | apply wp_emit
    | apply wp_bind; unfold bind_post at 1
    | apply wp_try_except; unfold try_post at 1 ].

Ltac wp_log := unfold log, sleep, print; repeat wp_step; simpl.

Section Proofs.

Context {E : Env}.
Variable cfg : Config.

(** ** The fetcher *)

Lemma wp_get_checked url (Q : result Response -> World -> Prop) w :
  (let w' := with_gets_done (S (gets_done w))
               (with_trace (trace w ++ [EvGet url (timeout (scraping cfg))]) w) in
   match session_get (gets_done w) url with
   | Ok r =>
       if is_http_error r
       then Q (Raise (RequestException "HTTPError")) w'
       else Q (Ok r) w'
   | Raise e => Q (Raise e) w'
   end) ->
  wp (get_checked cfg url) Q w.
Proof.
  unfold wp, get_checked. simpl.
  destruct (session_get (gets_done w) url) as [r|e]; simpl; auto.
  destruct (is_http_error r); simpl; auto.
Qed.

(** Whatever the network does, a fetch leaves files, statistics and clock
    alone; a response it returns passed [raise_for_status]; an exception
    it lets through was raised by [session.get] and is no
    [RequestException]. *)
Lemma make_request_loop_spec url r attempts w :
  wp (_make_request_loop cfg url r attempts)
     (fun res w' =>
        quiet w w' /\
        match res with
        | Ok (Some resp) => is_http_error resp = false
        | Ok None => True
        | Raise e =>
            is_RequestException e = false /\ exists k, session_get k url = Raise e
        end) w.
Proof.
  revert w. induction attempts as [|attempt rest IH]; intros w; simpl.
  - by apply wp_ret.
  - wp_log. apply wp_get_checked. simpl.
    set (w1 := with_gets_done _ _).
    assert (Hq : quiet w w1) by done.
    assert (Hfail : forall e,
      is_RequestException e = true ->
      wp (if (attempt =? r)%Z
          then log ERROR (MsgFetchFailed url (r + 1) e) ;;; ret None
          else log WARNING (MsgAttemptFailed (attempt + 1) url e) ;;;
               sleep (delay_between_requests (scraping cfg)) ;;;
               _make_request_loop cfg url r rest)
         (fun res w' =>
            quiet w w' /\
            match res with
            | Ok (Some resp) => is_http_error resp = false
            | Ok None => True
            | Raise e =>
                is_RequestException e = false /\
                exists k, session_get k url = Raise e
            end) w1).
    { intros e _. destruct (attempt =? r)%Z.
      - wp_log. done.
      - wp_log. eapply wp_mono; [apply IH|].
        intros res w' [Hq' Hres]. split; [|done].
        eapply quiet_trans; [|exact Hq']. done. }
    destruct (session_get (gets_done w) url) as [resp|e] eqn:Hget.
    + destruct (is_http_error resp) eqn:Herr; simpl.
      * by apply Hfail.
      * wp_log. done.
    + destruct (is_RequestException e) eqn:Hre; simpl.
      * by apply Hfail.
      * split; [done|]. split; [done|]. eauto.
Qed.

Lemma make_request_spec url retries_arg w :
  wp (_make_request cfg url retries_arg)
     (fun res w' =>
        quiet w w' /\
        match res with
        | Ok (Some resp) => is_http_error resp = false
        | Ok None => True
        | Raise e =>
            is_RequestException e = false /\ exists k, session_get k url = Raise e
        end) w.
Proof. unfold _make_request. apply make_request_loop_spec. Qed.

(** The requests and sleeps of a fetch that fails [n + 1] times. *)
Lemma make_request_loop_all_fail url r n :
  forall a w,
    (a + Z.of_nat n = r)%Z ->
    (forall k, gets_done w <= k <= gets_done w + n ->
               request_fails (session_get k url)) ->
    wp (_make_request_loop cfg url r (seqZ a (Z.of_nat (S n))))
       (fun res w' =>
          res = Ok None /\
          gets_done w' = gets_done w + S n /\
          exists evs,
            trace w' = (trace w ++ evs)%list /\
            io_events evs =
              EvGet url (timeout (scraping cfg))
              :: concat (replicate n
                   [EvSleep (delay_between_requests (scraping cfg));
                    EvGet url (timeout (scraping cfg))])) w.
Proof.
  induction n as [|n IH]; intros a w Ha Hfail.
  - assert (a = r) as -> by lia.
    change (seqZ r (Z.of_nat 1)) with [r]. simpl.
    wp_log. apply wp_get_checked. simpl.
    specialize (Hfail (gets_done w) ltac:(lia)).
    destruct (session_get (gets_done w) url) as [resp|e]; simpl in Hfail.
    + rewrite Hfail. simpl. rewrite Z.eqb_refl. wp_log.
      split; [done|]. split; [lia|].
      eexists. split; [by rewrite <- !app_assoc|]. done.
    + rewrite Hfail. rewrite Z.eqb_refl. wp_log.
      split; [done|]. split; [lia|].
      eexists. split; [by rewrite <- !app_assoc|]. done.
  - rewrite seqZ_cons by lia.
    replace (Z.pred (Z.of_nat (S (S n)))) with (Z.of_nat (S n)) by lia.
    simpl _make_request_loop.
    wp_log. apply wp_get_checked. simpl.
    assert (Hne : (a =? r)%Z = false) by (apply Z.eqb_neq; lia).
    pose proof (Hfail (gets_done w) ltac:(lia)) as Hnow.
    set (w1 := with_gets_done _ _).
    assert (Hrest : forall e,
      wp (if (a =? r)%Z
          then log ERROR (MsgFetchFailed url (r + 1) e) ;;; ret None
          else log WARNING (MsgAttemptFailed (a + 1) url e) ;;;
               sleep (delay_between_requests (scraping cfg)) ;;;
               _make_request_loop cfg url r (seqZ (Z.succ a) (Z.of_nat (S n))))
         (fun res w' =>
            res = Ok None /\
            gets_done w' = gets_done w + S (S n) /\
            exists evs,
              trace w' = (trace w ++ evs)%list /\
              io_events evs =
                EvGet url (timeout (scraping cfg))
                :: concat (replicate (S n)
                     [EvSleep (delay_between_requests (scraping cfg));
                      EvGet url (timeout (scraping cfg))])) w1).
    { intros e. rewrite Hne. wp_log.
      eapply wp_mono.
      - apply IH; [lia|]. intros k Hk. apply Hfail. simpl in Hk. lia.
      - simpl. intros res w' (-> & Hg & evs & Htr & Hio).
        split; [done|]. split; [lia|].
        eexists (_ :: _ :: _ :: _ :: evs). split.
        + rewrite Htr. rewrite <- !app_assoc. reflexivity.
        + simpl. by rewrite Hio. }
    destruct (session_get (gets_done w) url) as [resp|e]; simpl in Hnow.
    + rewrite Hnow. simpl. apply Hrest.
    + rewrite Hnow. apply Hrest.
Qed.

(** C3, as the code has it.  A fetch whose every attempt fails, by a
    [RequestException] of [session.get] or by a response with a 4xx or 5xx
    status, issues exactly [retries + 1] requests, sleeps
    [delay_between_requests] between two consecutive requests and not
    after the last, and returns [None] instead of raising.  (Any other
    status, inside 2xx or not, ends the fetch with that response.) *)
Theorem C3_retry_bound url retries_arg w :
  let r := match retries_arg with
           | None => retries (scraping cfg)
           | Some r => r
           end in
  (0 <= r)%Z ->
  (forall k, gets_done w <= k <= gets_done w + Z.to_nat r ->
             request_fails (session_get k url)) ->
  exists w' evs,
    _make_request cfg url retries_arg w = (Ok None, w') /\
    gets_done w' = gets_done w + Z.to_nat r + 1 /\
    trace w' = (trace w ++ evs)%list /\
    io_events evs =
      EvGet url (timeout (scraping cfg))
      :: concat (replicate (Z.to_nat r)
           [EvSleep (delay_between_requests (scraping cfg));
            EvGet url (timeout (scraping cfg))]).
Proof.
  intros r Hr Hfail.
  pose proof (make_request_loop_all_fail url r (Z.to_nat r) 0%Z w
                ltac:(lia) Hfail) as H.
  unfold _make_request. fold r.
  replace (r + 1)%Z with (Z.of_nat (S (Z.to_nat r))) by lia.
  unfold range.
  destruct (_make_request_loop cfg url r (seqZ 0 (Z.of_nat (S (Z.to_nat r)))) w)
    as [res w'] eqn:Hrun.
  eapply wp_elim in H; [|exact Hrun].
  destruct H as (-> & Hg & evs & Htr & Hio).
  exists w', evs. repeat split; [lia|done|done].
Qed.

(** ** The content extractor *)

Lemma first_match_of_here soup sel rest t others :
  select soup sel = t :: others ->
  forall t', first_match_of soup (sel :: rest) t' <-> t' = t.
Proof.
  intros Hsel t'. split.
  - intros (pre & sel' & post & others' & Hsplit & Hpre & Hsel').
    destruct pre as [|p pre]; simpl in Hsplit; inversion Hsplit; subst.
    + congruence.
    + inversion Hpre; subst. congruence.
  - intros ->. exists [], sel, rest, others. by repeat split.
Qed.

Lemma first_match_of_later soup sel rest :
  select soup sel = [] ->
  forall t, first_match_of soup (sel :: rest) t <-> first_match_of soup rest t.
Proof.
  intros Hsel t. split.
  - intros (pre & sel' & post & others & Hsplit & Hpre & Hsel').
    destruct pre as [|p pre]; simpl in Hsplit; inversion Hsplit; subst.
    + congruence.
    + inversion Hpre; subst. by exists pre, sel', post, others.
  - intros (pre & sel' & post & others & -> & Hpre & Hsel').
    exists (sel :: pre), sel', post, others. repeat split; [|done].
    by constructor.
Qed.

Lemma extract_content_loop_spec soup selectors w :
  exists o w',
    _extract_content_loop soup selectors w = (Ok o, w') /\
    quiet w w' /\ gets_done w' = gets_done w /\
    (forall t, o = Some t <-> first_match_of soup selectors t) /\
    (o = None <-> Forall (fun s => select soup s = []) selectors).
Proof.
  induction selectors as [|sel rest IH]; simpl.
  - eexists None, _. split; [reflexivity|]. repeat split; try done.
    intros (pre & sel & post & others & Hsplit & _).
    by destruct pre.
  - unfold select_one. destruct (select soup sel) as [|t others] eqn:Hsel; simpl.
    + destruct IH as (o & w' & Hrun & Hq & Hg & Hsome & Hnone).
      exists o, w'. split; [done|]. repeat split; try apply Hq; try done.
      * intros H. apply first_match_of_later; [done|]. by apply Hsome.
      * intros H. apply Hsome. by apply (first_match_of_later soup sel rest).
      * intros H. constructor; [done|]. by apply Hnone.
      * intros H. apply Hnone. by inversion H.
    + eexists (Some t), _. split; [reflexivity|]. repeat split; try done.
      * intros [= <-]. by apply (first_match_of_here soup sel rest t others).
      * intros H. f_equal. symmetry.
        by apply (first_match_of_here soup sel rest t others).
      * intros H. inversion H; subst. congruence.
Qed.

(** C4. Extraction returns the first match of the first content selector
    that matches at least one element, and returns [None] exactly when no
    content selector matches anything; it never raises. *)
Theorem C4_selector_priority soup w :
  exists o w',
    _extract_content cfg soup w = (Ok o, w') /\
    (forall t,
       o = Some t <->
       exists pre sel post others,
         content_selectors (scraping cfg) = (pre ++ sel :: post)%list /\
         Forall (fun s => select soup s = []) pre /\
         select soup sel = t :: others) /\
    (o = None <->
     Forall (fun s => select soup s = []) (content_selectors (scraping cfg))).
Proof.
  destruct (extract_content_loop_spec soup (content_selectors (scraping cfg)) w)
    as (o & w' & Hrun & _ & _ & Hsome & Hnone).
  exists o, w'. split; [exact Hrun|]. split; [exact Hsome|exact Hnone].
Qed.

Lemma extract_content_loop_first_match soup selectors w :
  exists w',
    _extract_content_loop soup selectors w = (Ok (first_match soup selectors), w') /\
    quiet w w' /\ gets_done w' = gets_done w.
Proof.
  unfold first_match.
  induction selectors as [|sel rest IH]; simpl.
  - eexists. split; [reflexivity|done].
  - unfold select_one. destruct (select soup sel) as [|t others]; simpl.
    + exact IH.
    + eexists. split; [reflexivity|done].
Qed.

(** ** The renderer *)

Lemma string_app_cons ch (a b : string) :
  String ch a +:+ b = String ch (a +:+ b).
Proof. reflexivity. Qed.

Lemma string_app_nil_l (a : string) : "" +:+ a = a.
Proof. reflexivity. Qed.

Lemma string_app_assoc (a b c : string) : (a +:+ b) +:+ c = a +:+ (b +:+ c).
Proof.
  induction a as [|ch a IH]; [done|].
  rewrite !string_app_cons. by f_equal.
Qed.

Lemma string_app_nil_r (a : string) : a +:+ "" = a.
Proof.
  induction a as [|ch a IH]; [done|].
  rewrite string_app_cons. by f_equal.
Qed.

Lemma substring_all (a : string) k :
  String.length a <= k -> String.substring 0 k a = a.
Proof.
  revert k. induction a as [|ch a IH]; intros k Hk; simpl in *.
  - by destruct k.
  - destruct k as [|k]; [lia|]. f_equal. apply IH. lia.
Qed.

Lemma substring_app (a b : string) n :
  String.substring 0 n (a +:+ b)
  = String.substring 0 n a +:+ String.substring 0 (n - String.length a) b.
Proof.
  revert n. induction a as [|ch a IH]; intros n.
  - rewrite string_app_nil_l. simpl. replace (n - 0) with n by lia.
    by destruct n.
  - rewrite string_app_cons. destruct n as [|n]; simpl; [by destruct b|].
    rewrite string_app_cons. f_equal. apply IH.
Qed.

(** The renderer converts the fragment and adds the heading, the source
    note and the timestamp annotation in that order; the timestamp is the
    local time read from the clock.  It touches neither files nor
    statistics, and it lets an exception of the converter through. *)
Lemma convert_to_markdown_spec html section w :
  wp (_convert_to_markdown cfg html section)
     (fun res w' =>
        fs w' = fs w /\ stats w' = stats w /\ gets_done w' = gets_done w /\
        trace w' = trace w /\
        res = match md html with
              | Ok converted =>
                  Ok (annotated_body cfg section converted
                      +:+ timestamp_suffix cfg (localtime (clock (clock_reads w))))
              | Raise e => Raise e
              end) w.
Proof.
  unfold wp, _convert_to_markdown, bind, lift_result, annotated_body,
    timestamp_suffix, header_note, source_note, timestamp_note, datetime_now, ret.
  destruct (md html) as [converted|e]; simpl; [|done].
  destruct (get_flag (add_section_headers (output cfg)));
    destruct (get_flag (add_source_url (output cfg)));
    destruct (get_flag (add_timestamp (output cfg))); simpl;
    repeat split; f_equal;
    rewrite ?string_app_assoc, ?string_app_nil_r; simpl; try done.
Qed.

(** ** Saving and scraping one section *)

(** The write of a document and its bookkeeping, by the fault of the file
    system at that path. *)
Lemma save_markdown_spec path markdown w :
  wp (save_markdown path markdown)
     (fun res w' =>
        gets_done w' = gets_done w /\ clock_reads w' = clock_reads w /\
        total_sections (stats w') = total_sections (stats w) /\
        extends (fun ev => forall p, ev <> EvLog INFO (MsgCreatedIndex p)) w w' /\
        match fs_fault path with
        | NoFault =>
            res = Ok true /\ fs w' = <[path := markdown]> (fs w) /\
            successful_scrapes (stats w') = S (successful_scrapes (stats w)) /\
            failed_scrapes (stats w') = failed_scrapes (stats w)
        | OpenFails e =>
            fs w' = fs w /\
            if is_Exception e
            then res = Ok false /\
                 successful_scrapes (stats w') = successful_scrapes (stats w) /\
                 failed_scrapes (stats w') = S (failed_scrapes (stats w))
            else res = Raise e /\ stats w' = stats w
        | WriteFails n e =>
            fs w' = <[path := String.substring 0 n markdown]> (fs w) /\
            if is_Exception e
            then res = Ok false /\
                 successful_scrapes (stats w') = successful_scrapes (stats w) /\
                 failed_scrapes (stats w') = S (failed_scrapes (stats w))
            else res = Raise e /\ stats w' = stats w
        end) w.
Proof.
  unfold wp, save_markdown, try_except, bind, write_text, log, emit,
    incr_successful, incr_failed, ret, extends.
  destruct (fs_fault path) as [|e|n e]; simpl.
  - repeat split; try done. eexists [_]. split; [done|].
    constructor; [|done]. intros p [=].
  - destruct (is_Exception e); simpl; repeat split; try done.
    + eexists [_]. split; [done|]. constructor; [|done]. intros p [=].
    + exists []. split; [by rewrite app_nil_r|done].
  - destruct (is_Exception e); simpl; repeat split; try done.
    + eexists [_]. split; [done|]. constructor; [|done]. intros p [=].
    + exists []. split; [by rewrite app_nil_r|done].
Qed.

(** [scrape_section], stage by stage: the fetch, then what [prepare] makes
    of its outcome, then the write of the document with the timestamp of
    the local clock. *)
Lemma scrape_section_spec section w :
  let url := base_url cfg +:+ url_suffix section in
  let w0 := with_trace (trace w ++ [EvLog INFO (MsgScraping (name section))]) w in
  let fetched := _make_request cfg url None w0 in
  exists w2,
    fs w2 = fs w /\ stats w2 = stats w /\
    gets_done w2 = gets_done (snd fetched) /\
    match prepare cfg section (fst fetched) with
    | PrepRaise e => scrape_section cfg section w = (Raise e, w2)
    | PrepFailed => scrape_section cfg section w = (Ok false, snd (incr_failed w2))
    | PrepBody body =>
        scrape_section cfg section w =
        save_markdown (output_path cfg section)
          (body +:+ timestamp_suffix cfg (localtime (clock (clock_reads w)))) w2
    end.
Proof.
  intros url w0 fetched. subst fetched.
  pose proof (make_request_spec url None w0) as Hf. unfold wp in Hf.
  destruct (_make_request cfg url None w0) as [fr w1] eqn:Hfetch.
  simpl in Hf |- *. destruct Hf as [(Hfs & Hst & Hck) Hres].
  unfold w0 in Hfs, Hst, Hck. simpl in Hfs, Hst, Hck.
  unfold scrape_section, prepare. fold url.
  erewrite bind_ok by apply log_eq. fold w0.
  destruct fr as [[resp|]|e].
  - erewrite bind_ok by exact Hfetch.
    unfold response_ok. rewrite !Hres. simpl.
    destruct (extract_content_loop_first_match
                (_clean_html cfg (BeautifulSoup (content resp)))
                (content_selectors (scraping cfg)) w1)
      as (w1' & Hrun & (Hfs' & Hst' & Hck') & Hg').
    unfold _extract_content. erewrite bind_ok by exact Hrun.
    destruct (first_match _ _) as [t|].
    + pose proof (convert_to_markdown_spec (tag_str t) section w1') as Hc.
      unfold wp in Hc.
      destruct (_convert_to_markdown cfg (tag_str t) section w1')
        as [cr wc] eqn:Hconv.
      simpl in Hc. destruct Hc as (Hfsc & Hstc & Hgc & Htrc & ->).
      destruct (md (tag_str t)) as [converted|e].
      * exists wc. split; [congruence|]. split; [congruence|].
        split; [congruence|].
        erewrite bind_ok.
        2:{ erewrite try_ok; [reflexivity|].
            erewrite bind_ok by exact Hconv. reflexivity. }
        rewrite Hck', Hck. reflexivity.
      * destruct (is_Exception e) eqn:Hcls.
        -- eexists (with_trace _ wc).
           split; [simpl; congruence|]. split; [simpl; congruence|].
           split; [simpl; congruence|].
           erewrite bind_ok.
           2:{ erewrite try_caught; [reflexivity| |exact Hcls].
               erewrite bind_raise by exact Hconv. reflexivity. }
           reflexivity.
        -- exists wc. split; [congruence|]. split; [congruence|].
           split; [congruence|].
           erewrite bind_raise.
           2:{ erewrite try_escapes; [reflexivity| |exact Hcls].
               erewrite bind_raise by exact Hconv. reflexivity. }
           reflexivity.
    + eexists (with_trace _ w1').
      split; [simpl; congruence|]. split; [simpl; congruence|].
      split; [simpl; congruence|]. reflexivity.
  - erewrite bind_ok by exact Hfetch. exists w1. by repeat split.
  - erewrite bind_raise by exact Hfetch. exists w1. by repeat split.
Qed.

(** ** The statistics *)

(** A section that was processed is counted once: as a success when
    [scrape_section] returns [True], as a failure when it returns
    [False]. *)
Lemma scrape_section_counts section w res w' :
  scrape_section cfg section w = (res, w') ->
  total_sections (stats w') = total_sections (stats w) /\
  match res with
  | Ok true =>
      successful_scrapes (stats w') = S (successful_scrapes (stats w)) /\
      failed_scrapes (stats w') = failed_scrapes (stats w)
  | Ok false =>
      successful_scrapes (stats w') = successful_scrapes (stats w) /\
      failed_scrapes (stats w') = S (failed_scrapes (stats w))
  | Raise _ => stats w' = stats w
  end.
Proof.
  intros Hrun.
  destruct (scrape_section_spec section w) as (w2 & Hfs & Hst & Hg & Hcase).
  destruct (prepare cfg section _) as [e| |body].
  - rewrite Hrun in Hcase. inversion Hcase; subst. by rewrite Hst.
  - rewrite Hrun in Hcase. inversion Hcase; subst. simpl. by rewrite Hst.
  - rewrite Hrun in Hcase. symmetry in Hcase.
    pose proof (wp_run _ _ _ _ _ Hcase (save_markdown_spec _ _ _)) as Hs.
    simpl in Hs.
    destruct Hs as (_ & _ & Htot & _ & Hs). rewrite Hst in Htot, Hs.
    split; [exact Htot|].
    destruct (fs_fault _) as [|e|n e].
    + by destruct Hs as (-> & _ & ? & ?).
    + destruct Hs as [_ Hs]. destruct (is_Exception e).
      * by destruct Hs as (-> & ? & ?).
      * by destruct Hs as (-> & ->).
    + destruct Hs as [_ Hs]. destruct (is_Exception e).
      * by destruct Hs as (-> & ? & ?).
      * by destruct Hs as (-> & ->).
Qed.

Lemma scrape_loop_counts n todo :
  forall i w w',
    scrape_loop cfg n i todo w = (Ok tt, w') ->
    total_sections (stats w') = total_sections (stats w) /\
    successful_scrapes (stats w') + failed_scrapes (stats w')
    = successful_scrapes (stats w) + failed_scrapes (stats w) + length todo.
Proof.
  induction todo as [|section rest IH]; intros i w w' Hrun; simpl in Hrun.
  - inversion Hrun; subst. simpl. split; [done|lia].
  - apply bind_inv_ok in Hrun as ([] & w1 & Hlog & Hrun).
    rewrite log_eq in Hlog. inversion Hlog; subst w1. clear Hlog.
    apply bind_inv_ok in Hrun as (b & w2 & Hsec & Hrun).
    apply scrape_section_counts in Hsec as [Htot Hcnt]. simpl in Htot, Hcnt.
    apply bind_inv_ok in Hrun as ([] & w3 & Hsleep & Hrun).
    assert (Hw3 : stats w3 = stats w2).
    { destruct (i <? n)%nat; inversion Hsleep; by subst. }
    apply IH in Hrun as [Htot' Hcnt']. rewrite Hw3 in Htot', Hcnt'.
    split; [congruence|]. simpl.
    destruct b; destruct Hcnt as [Hs Hf]; lia.
Qed.

(** C1. After the Process phase has run over the selected sections,
    [total_sections] is their number and
    [successful_scrapes + failed_scrapes == total_sections]; every section
    that was processed has been counted once, as a success or as a
    failure. *)
Theorem C1_counters_add_up selected w w' :
  fresh_stats w ->
  process_sections cfg selected w = (Ok tt, w') ->
  total_sections (stats w') = length selected /\
  successful_scrapes (stats w') + failed_scrapes (stats w')
  = total_sections (stats w') /\
  (forall section w1 b w2,
     scrape_section cfg section w1 = (Ok b, w2) ->
     if b
     then successful_scrapes (stats w2) = S (successful_scrapes (stats w1)) /\
          failed_scrapes (stats w2) = failed_scrapes (stats w1)
     else successful_scrapes (stats w2) = successful_scrapes (stats w1) /\
          failed_scrapes (stats w2) = S (failed_scrapes (stats w1))).
Proof.
  intros (_ & Hs0 & Hf0) Hrun. unfold process_sections in Hrun.
  apply bind_inv_ok in Hrun as ([] & w1 & Hset & Hrun).
  inversion Hset; subst w1. clear Hset.
  apply bind_inv_ok in Hrun as ([] & w2 & Hlog & Hrun).
  rewrite log_eq in Hlog. inversion Hlog; subst w2. clear Hlog.
  apply scrape_loop_counts in Hrun as [Htot Hcnt]. simpl in Htot, Hcnt.
  split; [exact Htot|]. split; [lia|].
  intros section w1 b w2 Hsec.
  apply scrape_section_counts in Hsec as [_ Hsec]. by destruct b.
Qed.

(** ** Failures of the file system *)



Lemma scrape_section_other_files section w res w' p :
  scrape_section cfg section w = (res, w') ->
  p <> output_path cfg section ->
  fs w' !! p = fs w !! p.
Proof.
  intros Hrun Hp.
  destruct (scrape_section_spec section w) as (w2 & Hfs & Hst & Hg & Hcase).
  destruct (prepare cfg section _) as [e| |body]; rewrite Hrun in Hcase.
  - inversion Hcase; subst. by rewrite Hfs.
  - inversion Hcase; subst. simpl. by rewrite Hfs.
  - symmetry in Hcase.
    pose proof (wp_run _ _ _ _ _ Hcase (save_markdown_spec _ _ _)) as Hs.
    simpl in Hs. destruct Hs as (_ & _ & _ & _ & Hs).
    destruct (fs_fault _) as [|e|n e].
    + destruct Hs as (_ & -> & _). rewrite lookup_insert_ne; [|done].
      by rewrite Hfs.
    + destruct Hs as [-> _]. by rewrite Hfs.
    + destruct Hs as [-> _]. rewrite lookup_insert_ne; [|done].
      by rewrite Hfs.
Qed.


(** When [session.get] raises nothing but [RequestException]s, the
    converter nothing but [Exception]s, and the file system faults are
    [Exception]s too, a section always ends with [True] or [False]. *)
Lemma scrape_section_returns section w :
  (forall k url e, session_get k url = Raise e -> is_RequestException e = true) ->
  (forall html e, md html = Raise e -> is_Exception e = true) ->
  (forall p e, fs_fault p = OpenFails e -> is_Exception e = true) ->
  (forall p n e, fs_fault p = WriteFails n e -> is_Exception e = true) ->
  exists b w', scrape_section cfg section w = (Ok b, w').
Proof.
  intros Hnet Hmd Hopen Hwrite.
  destruct (scrape_section_spec section w) as (w2 & Hfs & Hst & Hg & Hcase).
  pose proof (make_request_spec (base_url cfg +:+ url_suffix section) None
    (with_trace (trace w ++ [EvLog INFO (MsgScraping (name section))]) w)) as Hf.
  unfold wp in Hf. destruct Hf as [_ Hf].
  unfold prepare in Hcase.
  destruct (fst (_make_request cfg _ None _)) as [[resp|]|e].
  - destruct (is_http_error resp); [by eauto|].
    destruct (first_match _ _) as [t|]; [|by eauto].
    destruct (md (tag_str t)) as [converted|e] eqn:Hconv.
    + pose proof (save_markdown_spec (output_path cfg section)
        (annotated_body cfg section converted +:+
         timestamp_suffix cfg (localtime (clock (clock_reads w)))) w2) as Hs.
      unfold wp in Hs. rewrite <- Hcase in Hs.
      destruct (scrape_section cfg section w) as [res w'']. simpl in Hs.
      destruct Hs as (_ & _ & _ & _ & Hs).
      destruct (fs_fault _) as [|e|n e] eqn:Hfault.
      * destruct Hs as [-> _]. eauto.
      * rewrite (Hopen _ _ Hfault) in Hs. destruct Hs as (_ & -> & _). eauto.
      * rewrite (Hwrite _ _ _ Hfault) in Hs. destruct Hs as (_ & -> & _). eauto.
    + rewrite (Hmd _ _ Hconv) in Hcase. eauto.
  - eauto.
  - destruct Hf as [Hcls (k & Hk)]. apply Hnet in Hk. congruence.
Qed.

Lemma scrape_loop_returns n todo :
  (forall section w, exists b w', scrape_section cfg section w = (Ok b, w')) ->
  forall i w, exists w', scrape_loop cfg n i todo w = (Ok tt, w').
Proof.
  intros Hsec. induction todo as [|section rest IH]; intros i w; simpl.
  - by eexists.
  - erewrite bind_ok by apply log_eq.
    destruct (Hsec section
      (with_trace (trace w ++ [EvLog INFO (MsgProcessing i n (name section))]) w))
      as (b & w1 & Hrun).
    erewrite bind_ok by exact Hrun.
    destruct (i <? n)%nat.
    + erewrite bind_ok by reflexivity. apply IH.
    + erewrite bind_ok by reflexivity. apply IH.
Qed.


(** ** The trace of section processing *)

Lemma emits_get_checked url : emits not_index_event (get_checked cfg url).
Proof.
  intros w. unfold get_checked. exists [EvGet url (timeout (scraping cfg))].
  split; [|by constructor; [intros ? [=]|]].
  destruct (session_get (gets_done w) url) as [r|e]; [|done].
  by destruct (is_http_error r).
Qed.

Lemma emits_make_request_loop url r attempts :
  emits not_index_event (_make_request_loop cfg url r attempts).
Proof.
  induction attempts as [|attempt rest IH]; simpl.
  - apply emits_ret.
  - apply emits_bind; [auto with emits|]. intros _.
    apply emits_try_except.
    + apply emits_bind; [apply emits_get_checked|auto with emits].
    + intros e. apply emits_if; [auto 10 with emits|].
      apply emits_bind; [auto with emits|]. intros _.
      apply emits_bind; [|done]. apply emits_sleep. intros ? [=].
Qed.

Lemma emits_extract_content_loop soup selectors :
  emits not_index_event (_extract_content_loop soup selectors).
Proof.
  induction selectors as [|sel rest IH]; simpl; [auto 10 with emits|].
  destruct (select_one soup sel); [auto 10 with emits|done].
Qed.

Lemma emits_convert_to_markdown html section :
  emits not_index_event (_convert_to_markdown cfg html section).
Proof.
  apply emits_silent. intros w.
  pose proof (convert_to_markdown_spec html section w) as H.
  unfold wp in H. tauto.
Qed.

Lemma emits_save_markdown path markdown :
  emits not_index_event (save_markdown path markdown).
Proof.
  intros w. pose proof (save_markdown_spec path markdown w) as H.
  unfold wp in H. tauto.
Qed.

Lemma emits_scrape_section section :
  emits not_index_event (scrape_section cfg section).
Proof.
  unfold scrape_section.
  apply emits_bind; [auto with emits|]. intros _.
  apply emits_bind; [apply emits_make_request_loop|]. intros [resp|].
  - apply emits_if.
    { apply emits_bind; [by apply emits_silent|auto with emits]. }
    apply emits_bind; [apply emits_extract_content_loop|]. intros [t|].
    + apply emits_bind.
      * apply emits_try_except.
        -- apply emits_bind; [apply emits_convert_to_markdown|auto with emits].
        -- intros e. apply emits_bind; [auto with emits|]. intros _.
           apply emits_bind; [by apply emits_silent|auto with emits].
      * intros [markdown|]; [apply emits_save_markdown|auto with emits].
    + apply emits_bind; [auto with emits|]. intros _.
      apply emits_bind; [by apply emits_silent|auto with emits].
  - apply emits_bind; [by apply emits_silent|auto with emits].
Qed.

Lemma emits_scrape_loop n todo :
  forall i, emits not_index_event (scrape_loop cfg n i todo).
Proof.
  induction todo as [|section rest IH]; intros i; simpl; [auto with emits|].
  apply emits_bind; [auto with emits|]. intros _.
  apply emits_bind; [apply emits_scrape_section|]. intros _.
  apply emits_bind; [|intros _; apply IH].
  apply emits_if; [|auto with emits]. apply emits_sleep. intros ? [=].
Qed.

Lemma emits_process_sections selected :
  emits not_index_event (process_sections cfg selected).
Proof.
  unfold process_sections.
  apply emits_bind; [by apply emits_silent|]. intros _.
  apply emits_bind; [auto with emits|]. intros _.
  apply emits_scrape_loop.
Qed.

Lemma emits_print_statistics : emits not_index_event _print_statistics.
Proof.
  unfold _print_statistics.
  apply emits_bind; [by apply emits_silent|]. intros end_time w.
  revert w. change (emits not_index_event
    (fun w => (log INFO MsgStatsHeader ;;;
       log INFO (MsgStatsTotal (total_sections (stats w))) ;;;
       log INFO (MsgStatsSuccessful (successful_scrapes (stats w))) ;;;
       log INFO (MsgStatsFailed (failed_scrapes (stats w))) ;;;
       (if (total_sections (stats w) =? 0)%nat
        then raise ZeroDivisionError
        else log INFO (MsgStatsRate (successful_scrapes (stats w))
                                    (total_sections (stats w)))) ;;;
       log INFO (MsgStatsDuration (start_time (stats w)) end_time) ;;;
       log INFO MsgStatsFooter) w)).
  intros w.
  match goal with |- extends _ _ (snd (?m w)) => assert (H : emits not_index_event m) end.
  { repeat (apply emits_bind; [auto with emits|intros _]); auto with emits. }
  apply H.
Qed.

(** ** The statistics block of an empty run *)

(** C10. With no section configured and no filter, the run sets
    [total_sections] to 0, writes the index, logs the first lines of the
    statistics block and then divides by zero: [scrape_all] raises
    [ZeroDivisionError] and the success rate, the duration and the closing
    line are never logged.  The division is unguarded: whenever
    [total_sections] is 0, [_print_statistics] raises. *)
Theorem C10_empty_run_divides_by_zero section_filter w :
  sections cfg = [] ->
  truthy section_filter = false ->
  fs_fault (index_path cfg) = NoFault ->
  (forall w1, total_sections (stats w1) = 0 ->
              fst (_print_statistics w1) = Raise ZeroDivisionError) /\
  exists w',
    scrape_all cfg section_filter w = (Raise ZeroDivisionError, w') /\
    total_sections (stats w') = 0 /\
    trace w' =
      (trace w ++
       [EvLog INFO (MsgStarting 0);
        EvLog INFO (MsgCreatedIndex (index_path cfg));
        EvLog INFO MsgStatsHeader;
        EvLog INFO (MsgStatsTotal 0);
        EvLog INFO (MsgStatsSuccessful (successful_scrapes (stats w)));
        EvLog INFO (MsgStatsFailed (failed_scrapes (stats w)))])%list.
Proof.
  intros Hsec Hfilter Hfault. split.
  - intros w1 Htot. unfold _print_statistics, bind, datetime_now, log, emit.
    simpl. by rewrite Htot.
  - unfold index_path in *.
    unfold scrape_all, process_sections, finalize, create_index,
      _print_statistics, write_text.
    rewrite Hfilter, Hsec. simpl.
    unfold bind, set_total, log, emit, datetime_now, ret, raise. simpl.
    rewrite Hfault. simpl.
    eexists. split; [reflexivity|]. split; [done|]. simpl.
    by rewrite <- !app_assoc.
Qed.

(** ** An unknown section name *)

Lemma select_sections_unknown wanted :
  Forall (fun s => name s <> wanted) (sections cfg) ->
  select_sections cfg wanted = [].
Proof.
  unfold select_sections.
  induction (sections cfg) as [|s rest IH]; intros H; [done|].
  inversion H as [|? ? Hs Hrest]; subst. simpl.
  destruct (String.eqb_spec (name s) wanted) as [Heq|_]; [done|].
  by apply IH.
Qed.

Lemma scrape_all_unknown wanted w :
  wanted <> "" ->
  Forall (fun s => name s <> wanted) (sections cfg) ->
  scrape_all cfg (Some wanted) w
  = (Ok tt, with_trace (trace w ++ [EvLog ERROR (MsgSectionNotFound wanted)]) w).
Proof.
  intros Hne Hunknown. unfold scrape_all, truthy.
  destruct (String.eqb_spec wanted "") as [Heq|_]; [done|]. simpl.
  by rewrite select_sections_unknown.
Qed.

Lemma init_loaded config_path w :
  read_yaml config_path = YamlLoaded cfg ->
  mkdir_fault (docs_folder (output cfg)) = None ->
  __init__ config_path w
  = (Ok cfg,
     with_stats (mkStats 0 0 0 (localtime (clock (clock_reads w))))
       (with_clock_reads (S (clock_reads w)) w)).
Proof.
  intros Hyaml Hmkdir. unfold __init__, _load_config, mkdir.
  rewrite Hyaml. erewrite bind_ok by reflexivity.
  rewrite Hmkdir. reflexivity.
Qed.

(** C2, as the code has it.  When the name given with [--section] is not
    empty and is not the name of a configured section, [scrape_all] logs
    that the section was not found and returns: nothing is fetched or
    written, the index and the statistics block are skipped, and the
    process ends with exit status 0. *)
Theorem C2_unknown_section_exits_normally args wanted w :
  read_yaml (arg_config args) = YamlLoaded cfg ->
  mkdir_fault (docs_folder (output cfg)) = None ->
  arg_section args = Some wanted ->
  wanted <> "" ->
  Forall (fun s => name s <> wanted) (sections cfg) ->
  exists w',
    main args w = (0%Z, w') /\
    fs w' = fs w /\
    gets_done w' = gets_done w /\
    total_sections (stats w') = 0 /\
    trace w' = (trace w ++ [EvLog ERROR (MsgSectionNotFound wanted)])%list.
Proof.
  intros Hyaml Hmkdir Hsection Hne Hunknown.
  unfold main.
  erewrite bind_ok by (by apply init_loaded).
  rewrite Hsection, scrape_all_unknown by done.
  eexists. split; [reflexivity|]. done.
Qed.

(** ** The index file *)

Lemma index_entries_fold secs (lines : list string) :
  fold_left (fun acc section => (acc ++ [index_entry section])%list) secs lines
  = (lines ++ List.map index_entry secs)%list.
Proof.
  revert lines. induction secs as [|s rest IH]; intros lines; simpl.
  - by rewrite app_nil_r.
  - rewrite IH. by rewrite <- app_assoc.
Qed.

(** [create_index] reads the clock, then writes the title, the timestamp,
    one bullet per configured section in configured order, the usage note
    and the footer; when the write fails its exception escapes and nothing
    is logged. *)
Lemma create_index_spec w :
  let now := localtime (clock (clock_reads w)) in
  let text :=
    join_lines (index_head now ++ List.map index_entry (sections cfg) ++ index_tail) in
  exists w',
    match fs_fault (index_path cfg) with
    | NoFault =>
        create_index cfg w = (Ok tt, w') /\
        fs w' = <[index_path cfg := text]> (fs w) /\
        trace w' = (trace w ++ [EvLog INFO (MsgCreatedIndex (index_path cfg))])%list
    | OpenFails e =>
        create_index cfg w = (Raise e, w') /\ fs w' = fs w /\ trace w' = trace w
    | WriteFails n e =>
        create_index cfg w = (Raise e, w') /\
        fs w' = <[index_path cfg := String.substring 0 n text]> (fs w) /\
        trace w' = trace w
    end /\
    stats w' = stats w /\ gets_done w' = gets_done w.
Proof.
  intros now text. unfold create_index, index_path in *.
  erewrite bind_ok by reflexivity. rewrite index_entries_fold.
  rewrite <- app_assoc. fold now. fold text. clearbody text now.
  unfold bind, write_text, log, emit.
  destruct (fs_fault _) as [|e|n e]; eexists;
    (split; [split; [reflexivity|by split]|by split]).
Qed.

Lemma print_statistics_fs w : fs (snd (_print_statistics w)) = fs w.
Proof.
  unfold _print_statistics, bind, datetime_now, log, emit. simpl.
  by destruct (total_sections (stats w) =? 0)%nat.
Qed.

(** The files that section processing leaves alone: every path that is
    not the output file of a processed section, however the loop ends. *)
Lemma scrape_loop_other_files n todo p :
  Forall (fun s => p <> output_path cfg s) todo ->
  forall i w, fs (snd (scrape_loop cfg n i todo w)) !! p = fs w !! p.
Proof.
  induction 1 as [|section rest Hp _ IH]; intros i w; simpl; [done|].
  erewrite bind_ok by apply log_eq.
  destruct (scrape_section cfg section
    (with_trace (trace w ++ [EvLog INFO (MsgProcessing i n (name section))]) w))
    as [[b|e] w1] eqn:Hsec.
  - erewrite bind_ok by exact Hsec.
    assert (Hpause : exists w2,
      (if (i <? n)%nat then sleep (delay_between_requests (scraping cfg))
       else ret tt) w1 = (Ok tt, w2) /\ fs w2 = fs w1).
    { destruct (i <? n)%nat; eexists; by split. }
    destruct Hpause as (w2 & Hpause & Hfs2).
    erewrite bind_ok by exact Hpause.
    rewrite IH, Hfs2.
    by rewrite (scrape_section_other_files _ _ _ _ p Hsec Hp).
  - erewrite bind_raise by exact Hsec. simpl.
    by rewrite (scrape_section_other_files _ _ _ _ p Hsec Hp).
Qed.

Lemma process_sections_other_files selected p w :
  Forall (fun s => p <> output_path cfg s) selected ->
  fs (snd (process_sections cfg selected w)) !! p = fs w !! p.
Proof.
  intros Hp. unfold process_sections.
  erewrite bind_ok by reflexivity. erewrite bind_ok by apply log_eq.
  by rewrite scrape_loop_other_files.
Qed.

(** The files after the Finalize phase: a filtered run writes none; an
    unfiltered run writes the index file, wholly, not at all when it cannot
    be opened, or up to the character at which the write fails. *)
Lemma finalize_files section_filter w1 :
  let text := index_text cfg (localtime (clock (clock_reads w1))) in
  fs (snd (finalize cfg section_filter w1)) =
  if truthy section_filter then fs w1
  else match fs_fault (index_path cfg) with
       | NoFault => <[index_path cfg := text]> (fs w1)
       | OpenFails _ => fs w1
       | WriteFails n _ => <[index_path cfg := String.substring 0 n text]> (fs w1)
       end.
Proof.
  intros text. unfold finalize. destruct (truthy section_filter); simpl.
  - erewrite bind_ok by reflexivity. apply print_statistics_fs.
  - destruct (create_index_spec w1) as (w2 & Hidx & _).
    fold (index_text cfg (localtime (clock (clock_reads w1)))) in Hidx.
    fold text in Hidx.
    destruct (fs_fault (index_path cfg)) as [|e|n e];
      destruct Hidx as (Hci & Hfs & _).
    + erewrite bind_ok by exact Hci. by rewrite print_statistics_fs.
    + by erewrite bind_raise by exact Hci.
    + by erewrite bind_raise by exact Hci.
Qed.

(** The log record of the index file appears exactly when the filter is
    absent or empty, section processing ran to its end and the write of
    the index succeeded. *)
Lemma index_reported section_filter w :
  let w' := snd (scrape_all cfg section_filter w) in
  let reported := emitted (EvLog INFO (MsgCreatedIndex (index_path cfg))) w w' in
  (reported <->
   truthy section_filter = false /\
   (exists w1, process_sections cfg (sections cfg) w = (Ok tt, w1)) /\
   fs_fault (index_path cfg) = NoFault) /\
  (reported ->
   exists now,
     fs w' !! index_path cfg =
     Some (join_lines
             (index_head now ++ List.map index_entry (sections cfg) ++ index_tail))).
Proof.
  intros w' reported. subst reported w'.
  destruct (truthy section_filter) eqn:Hfilter.
  - (* a filtered run never calls [create_index] *)
    assert (Hquiet : extends not_index_event w (snd (scrape_all cfg section_filter w))).
    { assert (H : emits not_index_event (scrape_all cfg section_filter)); [|apply H].
      unfold scrape_all, finalize. rewrite Hfilter. simpl.
      destruct (select_sections cfg _); [auto with emits|].
      apply emits_bind; [apply emits_process_sections|]. intros _.
      apply emits_bind; [auto with emits|]. intros _.
      apply emits_print_statistics. }
    split.
    + split; [|by intros [? _]].
      intros H. destruct (extends_not_emitted _ _ _ Hquiet H).
    + intros H. destruct (extends_not_emitted _ _ _ Hquiet H).
  - unfold scrape_all, finalize. rewrite Hfilter. simpl.
    pose proof (emits_process_sections (sections cfg) w) as Hproc.
    destruct (process_sections cfg (sections cfg) w) as [[[]|e] w1] eqn:Hrun;
      simpl in Hproc.
    + erewrite bind_ok by exact Hrun.
      destruct (create_index_spec w1) as (w2 & Hidx & _ & _).
      destruct (fs_fault (index_path cfg)) as [|e|n e] eqn:Hfault.
      * destruct Hidx as (Hci & Hfs & Htr).
        erewrite bind_ok by exact Hci.
        pose proof (emits_print_statistics w2) as (evs3 & Htr3 & _).
        destruct Hproc as (evs1 & Htr1 & _).
        assert (Hrep : emitted (EvLog INFO (MsgCreatedIndex (index_path cfg))) w
                         (snd (_print_statistics w2))).
        { exists (evs1 ++ [EvLog INFO (MsgCreatedIndex (index_path cfg))] ++ evs3)%list.
          split.
          - rewrite Htr3, Htr, Htr1. by rewrite <- !app_assoc.
          - apply in_or_app. right. by left. }
        split; [split; [by eauto|done]|].
        intros _. eexists. rewrite print_statistics_fs, Hfs.
        by rewrite lookup_insert_eq.
      * destruct Hidx as (Hci & _ & Htr).
        erewrite bind_raise by exact Hci. simpl.
        assert (Hq : extends not_index_event w w2).
        { eapply extends_trans; [exact Hproc|by apply extends_refl]. }
        split; [|by intros H; destruct (extends_not_emitted _ _ _ Hq H)].
        split; [|by intros (_ & _ & ?)].
        intros H. destruct (extends_not_emitted _ _ _ Hq H).
      * destruct Hidx as (Hci & _ & Htr).
        erewrite bind_raise by exact Hci. simpl.
        assert (Hq : extends not_index_event w w2).
        { eapply extends_trans; [exact Hproc|by apply extends_refl]. }
        split; [|by intros H; destruct (extends_not_emitted _ _ _ Hq H)].
        split; [|by intros (_ & _ & ?)].
        intros H. destruct (extends_not_emitted _ _ _ Hq H).
    + erewrite bind_raise by exact Hrun. simpl.
      split; [|by intros H; destruct (extends_not_emitted _ _ _ Hproc H)].
      split; [|by intros (_ & [? ?] & _)].
      intros H. destruct (extends_not_emitted _ _ _ Hproc H).
Qed.

(** C6, as the code has it.  The index file is written, and reported in
    the log, exactly when [section_filter] is absent or empty, section
    processing ran to its end and the write of the index succeeded.  The
    file then holds the title, the generation timestamp, one bullet
    [- **[name](filename)** - description] per configured section in
    configured order, the usage note and the footer.  In every other case
    the index file is not written: a filtered run ends with the files as
    the processing of the selected sections left them, and so does an
    unfiltered run in which an exception escapes section processing or the
    index file cannot be opened; only when the index file was opened and
    its write then failed does it hold the first characters of the index.
    Section processing itself leaves the index file as it was, unless the
    index file is also the output file of a processed section. *)
Theorem C6_index_written section_filter w :
  let w' := snd (scrape_all cfg section_filter w) in
  let reported := emitted (EvLog INFO (MsgCreatedIndex (index_path cfg))) w w' in
  let processed := process_sections cfg (sections cfg) w in
  let text := index_text cfg (localtime (clock (clock_reads (snd processed)))) in
  (reported <->
   truthy section_filter = false /\
   (exists w1, process_sections cfg (sections cfg) w = (Ok tt, w1)) /\
   fs_fault (index_path cfg) = NoFault) /\
  (reported ->
   exists now,
     fs w' !! index_path cfg =
     Some (join_lines
             (index_head now ++ List.map index_entry (sections cfg) ++ index_tail))) /\
  (truthy section_filter = false ->
   fs w' =
   match fst processed, fs_fault (index_path cfg) with
   | Ok _, NoFault => <[index_path cfg := text]> (fs (snd processed))
   | Ok _, WriteFails n _ =>
       <[index_path cfg := String.substring 0 n text]> (fs (snd processed))
   | Ok _, OpenFails _ | Raise _, _ => fs (snd processed)
   end) /\
  (truthy section_filter = true ->
   let selected := select_sections cfg (default "" section_filter) in
   fs w' = match selected with
           | [] => fs w
           | _ :: _ => fs (snd (process_sections cfg selected w))
           end /\
   (Forall (fun s => output_path cfg s <> index_path cfg) selected ->
    fs w' !! index_path cfg = fs w !! index_path cfg)) /\
  (Forall (fun s => output_path cfg s <> index_path cfg) (sections cfg) ->
   fs (snd processed) !! index_path cfg = fs w !! index_path cfg).
Proof.
  intros w' reported processed text. subst w' reported processed text.
  destruct (index_reported section_filter w) as [Hiff Htext].
  split; [exact Hiff|]. split; [exact Htext|]. split; [|split].
  - intros Hfilter. unfold scrape_all. rewrite Hfilter.
    pose proof (finalize_files section_filter
                  (snd (process_sections cfg (sections cfg) w))) as Hfin.
    rewrite Hfilter in Hfin. simpl in Hfin.
    destruct (process_sections cfg (sections cfg) w) as [[[]|e] w1] eqn:Hrun.
    + erewrite bind_ok by exact Hrun. simpl. simpl in Hfin. rewrite Hfin.
      by destruct (fs_fault (index_path cfg)).
    + by erewrite bind_raise by exact Hrun.
  - intros Hfilter selected. subst selected.
    assert (Hfs : fs (snd (scrape_all cfg section_filter w)) =
      match select_sections cfg (default "" section_filter) with
      | [] => fs w
      | _ :: _ =>
          fs (snd (process_sections cfg
                     (select_sections cfg (default "" section_filter)) w))
      end).
    { unfold scrape_all. rewrite Hfilter.
      destruct (select_sections cfg (default "" section_filter)) as [|s rest];
        [done|].
      pose proof (finalize_files section_filter
                    (snd (process_sections cfg (s :: rest) w))) as Hfin.
      rewrite Hfilter in Hfin.
      destruct (process_sections cfg (s :: rest) w) as [[[]|e] w1] eqn:Hrun.
      - erewrite bind_ok by exact Hrun. exact Hfin.
      - by erewrite bind_raise by exact Hrun. }
    split; [exact Hfs|].
    intros Hother. rewrite Hfs.
    destruct (select_sections cfg (default "" section_filter)) as [|s rest] eqn:Hsel;
      [done|].
    apply process_sections_other_files.
    eapply Forall_impl; [exact Hother|]. intros s' Hs' Heq. by apply Hs'.
  - intros Hother. apply process_sections_other_files.
    eapply Forall_impl; [exact Hother|]. intros s' Hs' Heq. by apply Hs'.
Qed.

(** ** Two runs on the same upstream content *)

Lemma uniform_ret {A} (a : A) : uniform (ret a).
Proof. by intros w1 w2 H. Qed.

Lemma uniform_bind {A B} (m : M A) (k : A -> M B) :
  uniform m -> (forall a, uniform (k a)) -> uniform (bind m k).
Proof.
  intros Hm Hk w1 w2 H. destruct (Hm w1 w2 H) as [Hr Hg]. unfold bind.
  destruct (m w1) as [[a1|e1] w1'], (m w2) as [[a2|e2] w2']; simpl in *;
    try discriminate.
  - injection Hr as ->. by apply Hk.
  - injection Hr as ->. by split.
Qed.

Lemma uniform_try_except {A} (m : M A) catches (h : exn -> M A) :
  uniform m -> (forall e, uniform (h e)) -> uniform (try_except m catches h).
Proof.
  intros Hm Hh w1 w2 H. destruct (Hm w1 w2 H) as [Hr Hg]. unfold try_except.
  destruct (m w1) as [[a1|e1] w1'], (m w2) as [[a2|e2] w2']; simpl in *;
    try discriminate.
  - by split.
  - injection Hr as ->. destruct (catches e2); [by apply Hh|by split].
Qed.

Lemma uniform_emit ev : uniform (emit ev).
Proof. by intros w1 w2 H. Qed.

Lemma uniform_get_checked url : uniform (get_checked cfg url).
Proof.
  intros w1 w2 H. unfold get_checked. rewrite H.
  destruct (session_get (gets_done w2) url) as [r|e]; simpl; [|done].
  by destruct (is_http_error r).
Qed.

Lemma uniform_make_request_loop url r attempts :
  uniform (_make_request_loop cfg url r attempts).
Proof.
  induction attempts as [|attempt rest IH]; simpl; [apply uniform_ret|].
  apply uniform_bind; [apply uniform_emit|]. intros _.
  apply uniform_try_except.
  - apply uniform_bind; [apply uniform_get_checked|]. intros resp.
    apply uniform_ret.
  - intros e. destruct (attempt =? r)%Z.
    + apply uniform_bind; [apply uniform_emit|]. intros _. apply uniform_ret.
    + apply uniform_bind; [apply uniform_emit|]. intros _.
      apply uniform_bind; [apply uniform_emit|]. intros _. exact IH.
Qed.

Lemma substring_zero (a : string) : String.substring 0 0 a = "".
Proof. by destruct a. Qed.

Lemma substring_empty k : String.substring 0 k "" = "".
Proof. by destruct k. Qed.

(** Two documents with the same body, cut after the same number of
    characters, agree up to the timestamp annotation. *)
Lemma same_but_timestamp_cut body now1 now2 n :
  same_but_timestamp
    (Some (String.substring 0 n (body +:+ timestamp_suffix cfg now1)))
    (Some (String.substring 0 n (body +:+ timestamp_suffix cfg now2))).
Proof.
  unfold same_but_timestamp, timestamp_suffix.
  rewrite !substring_app.
  destruct (get_flag (add_timestamp (output cfg))).
  - by exists (String.substring 0 n body), (n - String.length body), now1, now2.
  - exists (String.substring 0 n body), 0, now1, now2.
    by rewrite !substring_empty, !substring_zero.
Qed.

Lemma same_but_timestamp_whole body now1 now2 :
  same_but_timestamp
    (Some (body +:+ timestamp_suffix cfg now1))
    (Some (body +:+ timestamp_suffix cfg now2)).
Proof.
  pose proof (same_but_timestamp_cut body now1 now2
    (String.length (body +:+ timestamp_suffix cfg now1)
     + String.length (body +:+ timestamp_suffix cfg now2))) as H.
  rewrite !substring_all in H by lia. exact H.
Qed.

End Proofs.

(** ** A later run, with another clock *)

Section TwoRuns.

Context {E : Env}.
Variable cfg : Config.
Variable clock2 : nat -> Z.
Variable localtime2 : Z -> DateTime.

Let E2 : Env := with_clock E clock2 localtime2.

(** The stages that never read the clock are the same in both runs. *)
Lemma make_request_with_clock url r w :
  _make_request (E:=E2) cfg url r w = _make_request (E:=E) cfg url r w.
Proof. reflexivity. Qed.

Lemma prepare_with_clock section fetched :
  prepare (E:=E2) cfg section fetched = prepare (E:=E) cfg section fetched.
Proof. reflexivity. Qed.

Lemma save_markdown_with_clock path markdown w :
  save_markdown (E:=E2) path markdown w = save_markdown (E:=E) path markdown w.
Proof. reflexivity. Qed.

Lemma file_agrees_untouched (f1 f2 : option string) : file_agrees f1 f1 f2 f2.
Proof. by left. Qed.

Lemma file_agrees_step (a0 a1 a2 b0 b1 b2 : option string) :
  file_agrees a0 a1 b0 b1 -> file_agrees a1 a2 b1 b2 -> file_agrees a0 a2 b0 b2.
Proof.
  intros [[Ha Hb]|H1] [[Ha' Hb']|H2].
  - left. split; congruence.
  - by right.
  - right. by rewrite Ha', Hb'.
  - by right.
Qed.

(** One section in the two runs: the same outcome, the same number of
    requests, and an output file that differs at most in the timestamp
    annotation. *)
Lemma scrape_section_two_runs section w1 w2 :
  gets_done w1 = gets_done w2 ->
  let run1 := scrape_section (E:=E) cfg section w1 in
  let run2 := scrape_section (E:=E2) cfg section w2 in
  fst run1 = fst run2 /\
  gets_done (snd run1) = gets_done (snd run2) /\
  forall p, file_agrees (fs w1 !! p) (fs (snd run1) !! p)
                        (fs w2 !! p) (fs (snd run2) !! p).
Proof.
  intros Hsync run1 run2. subst run1 run2.
  destruct (scrape_section_spec (E:=E) cfg section w1)
    as (wa & Hfa & _ & Hga & Hca).
  destruct (scrape_section_spec (E:=E2) cfg section w2)
    as (wb & Hfb & _ & Hgb & Hcb).
  rewrite make_request_with_clock in Hgb, Hcb.
  rewrite prepare_with_clock in Hcb.
  set (url := base_url cfg +:+ url_suffix section) in *.
  assert (Hu : uniform (_make_request (E:=E) cfg url None))
    by apply uniform_make_request_loop.
  destruct (Hu
    (with_trace (trace w1 ++ [EvLog INFO (MsgScraping (name section))]) w1)
    (with_trace (trace w2 ++ [EvLog INFO (MsgScraping (name section))]) w2)
    Hsync) as [Hres Hgets].
  rewrite <- Hres in Hcb. rewrite <- Hgets in Hgb.
  destruct (prepare cfg section _) as [e| |body].
  - rewrite Hca, Hcb. simpl. split; [done|]. split; [congruence|].
    intros p. left. by rewrite Hfa, Hfb.
  - rewrite Hca, Hcb. simpl. split; [done|]. split; [congruence|].
    intros p. left. by rewrite Hfa, Hfb.
  - rewrite Hca, Hcb, save_markdown_with_clock.
    set (path := output_path (E:=E) cfg section).
    change (output_path (E:=E2) cfg section) with path.
    set (doc1 := body +:+ timestamp_suffix cfg (localtime (clock (clock_reads w1)))).
    set (doc2 := body +:+ timestamp_suffix cfg _).
    pose proof (save_markdown_spec (E:=E) path doc1 wa) as Ha.
    pose proof (save_markdown_spec (E:=E) path doc2 wb) as Hb.
    unfold wp in Ha, Hb.
    destruct Ha as (Hga' & _ & _ & _ & Ha). destruct Hb as (Hgb' & _ & _ & _ & Hb).
    split; [|split; [congruence|]].
    + destruct (fs_fault path) as [|e|n e].
      * destruct Ha as [-> _], Hb as [-> _]. done.
      * destruct Ha as [_ Ha], Hb as [_ Hb]. destruct (is_Exception e).
        -- destruct Ha as [-> _], Hb as [-> _]. done.
        -- destruct Ha as [-> _], Hb as [-> _]. done.
      * destruct Ha as [_ Ha], Hb as [_ Hb]. destruct (is_Exception e).
        -- destruct Ha as [-> _], Hb as [-> _]. done.
        -- destruct Ha as [-> _], Hb as [-> _]. done.
    + intros p. destruct (fs_fault path) as [|e|n e].
      * destruct Ha as (_ & -> & _), Hb as (_ & -> & _).
        rewrite Hfa, Hfb. destruct (decide (p = path)) as [->|Hne].
        -- right. rewrite !lookup_insert_eq. apply same_but_timestamp_whole.
        -- left. by rewrite !lookup_insert_ne.
      * destruct Ha as [-> _], Hb as [-> _]. left. by rewrite Hfa, Hfb.
      * destruct Ha as [-> _], Hb as [-> _].
        rewrite Hfa, Hfb. destruct (decide (p = path)) as [->|Hne].
        -- right. rewrite !lookup_insert_eq. apply same_but_timestamp_cut.
        -- left. by rewrite !lookup_insert_ne.
Qed.

Lemma pause_eq (c : bool) d w :
  exists w',
    (if c then sleep d else ret tt) w = (Ok tt, w') /\
    fs w' = fs w /\ gets_done w' = gets_done w.
Proof. destruct c; eexists; by repeat split. Qed.

Lemma scrape_loop_two_runs n todo :
  forall i w1 w2,
    gets_done w1 = gets_done w2 ->
    let run1 := scrape_loop (E:=E) cfg n i todo w1 in
    let run2 := scrape_loop (E:=E2) cfg n i todo w2 in
    fst run1 = fst run2 /\
    gets_done (snd run1) = gets_done (snd run2) /\
    forall p, file_agrees (fs w1 !! p) (fs (snd run1) !! p)
                          (fs w2 !! p) (fs (snd run2) !! p).
Proof.
  induction todo as [|section rest IH]; intros i w1 w2 Hsync; simpl.
  - split; [done|]. split; [done|]. intros p. apply file_agrees_untouched.
  - erewrite (bind_ok (log _ _)) by apply log_eq.
    erewrite (bind_ok (log _ _) _ w2) by apply log_eq.
    set (wa0 := with_trace _ w1). set (wb0 := with_trace _ w2).
    destruct (scrape_section_two_runs section wa0 wb0 Hsync)
      as (Hres & Hg & Hfiles).
    destruct (scrape_section (E:=E) cfg section wa0) as [[b|e] wa1] eqn:Ha;
      destruct (scrape_section (E:=E2) cfg section wb0) as [[b'|e'] wb1] eqn:Hb;
      simpl in Hres, Hg, Hfiles; try discriminate.
    + erewrite (bind_ok _ _ wa0) by exact Ha.
      erewrite (bind_ok _ _ wb0) by exact Hb.
      destruct (pause_eq (i <? n)%nat (delay_between_requests (scraping cfg)) wa1)
        as (wa2 & Hpa & Hfa & Hga).
      destruct (pause_eq (i <? n)%nat (delay_between_requests (scraping cfg)) wb1)
        as (wb2 & Hpb & Hfb & Hgb).
      erewrite (bind_ok _ _ wa1) by exact Hpa.
      erewrite (bind_ok _ _ wb1) by exact Hpb.
      destruct (IH (S i) wa2 wb2 ltac:(congruence)) as (Hres' & Hg' & Hfiles').
      split; [exact Hres'|]. split; [exact Hg'|].
      intros p. eapply file_agrees_step; [apply Hfiles|].
      rewrite <- Hfa, <- Hfb. apply Hfiles'.
    + erewrite (bind_raise _ _ wa0) by exact Ha.
      erewrite (bind_raise _ _ wb0) by exact Hb.
      simpl. injection Hres as ->. split; [done|]. split; [done|]. exact Hfiles.
Qed.

Lemma process_sections_eq (E' : Env) selected w :
  process_sections (E:=E') cfg selected w
  = scrape_loop (E:=E') cfg (length selected) 1 selected
      (with_trace (trace w ++ [EvLog INFO (MsgStarting (length selected))])
         (snd (set_total (length selected) w))).
Proof. reflexivity. Qed.

(** C9. Two runs over all the sections with the same configuration and
    the same answers to the same requests, the second with another clock:
    both end the same way, and every file is either left alone by both or
    holds in both the same text up to the timestamp annotation. *)
Theorem C9_rerun_differs_in_timestamp_only w1 w2 :
  gets_done w1 = gets_done w2 ->
  let run1 := process_sections (E:=E) cfg (sections cfg) w1 in
  let run2 := process_sections (E:=E2) cfg (sections cfg) w2 in
  fst run1 = fst run2 /\
  forall p, file_agrees (fs w1 !! p) (fs (snd run1) !! p)
                        (fs w2 !! p) (fs (snd run2) !! p).
Proof.
  intros Hsync run1 run2. subst run1 run2.
  rewrite !process_sections_eq.
  destruct (scrape_loop_two_runs (length (sections cfg)) (sections cfg) 1
    (with_trace (trace w1 ++ [EvLog INFO (MsgStarting (length (sections cfg)))])
       (snd (set_total (length (sections cfg)) w1)))
    (with_trace (trace w2 ++ [EvLog INFO (MsgStarting (length (sections cfg)))])
       (snd (set_total (length (sections cfg)) w2)))
    Hsync) as (Hres & _ & Hfiles).
  split; [exact Hres|exact Hfiles].
Qed.

End TwoRuns.

(** ** Concrete runs *)

Module Runs.

Import Demo.

(** A run over two sections on a machine that may not write
    [docs/overview.md]: one failure, one success. *)
Lemma C1_witness :
  let E1 := env [overview; hooks] net_up overview_denied 0 in
  let w' := snd (process_sections (E:=E1) (config [overview; hooks])
                   [overview; hooks] w0) in
  total_sections (stats w') = 2 /\
  successful_scrapes (stats w') = 1 /\
  failed_scrapes (stats w') = 1.
Proof.
  intros E1 w'.
  destruct (C1_counters_add_up (E:=E1) (config [overview; hooks])
              [overview; hooks] w0 w') as (Htotal & Hsum & _).
  - vm_compute. auto.
  - vm_compute. reflexivity.
  - split; [exact Htotal|]. vm_compute. auto.
Defined.

(** [--section nope] with only [overview] configured: the process ends
    with exit status 0, not 1. *)
Lemma C2_unknown_section_exit_status_is_zero :
  let E1 := env [overview] net_up no_faults 0 in
  existsb (fun s => String.eqb (name s) "nope") (sections (config [overview])) = false /\
  fst (main (E:=E1) (mkArgs "config.yaml" (Some "nope") false) w0) = 0%Z.
Proof. vm_compute. auto. Defined.

Lemma C2_witness :
  exists w',
    main (E:=env [overview] net_up no_faults 0)
      (mkArgs "config.yaml" (Some "nope") false) w0 = (0%Z, w') /\
    fs w' = fs w0 /\
    gets_done w' = gets_done w0 /\
    total_sections (stats w') = 0 /\
    trace w' = (trace w0 ++ [EvLog ERROR (MsgSectionNotFound "nope")])%list.
Proof.
  apply (C2_unknown_section_exits_normally
           (E:=env [overview] net_up no_faults 0) (config [overview])
           (mkArgs "config.yaml" (Some "nope") false) "nope" w0).
  - reflexivity.
  - reflexivity.
  - reflexivity.
  - discriminate.
  - repeat constructor. discriminate.
Defined.

(** The server answers every request with 304 Not Modified, or with the
    unassigned status 600: statuses outside 2xx that [raise_for_status]
    lets pass.  With two retries configured the fetch issues one request,
    does not sleep and returns the response. *)
Lemma C3_non_2xx_status_is_returned :
  let cfg := config [overview] in
  let url := "https://docs.example.com/overview" in
  let run code :=
    _make_request (E:=env [overview] (net_status code) no_faults 0) cfg url None w0 in
  retries (scraping cfg) = 2%Z /\
  fst (run 304%Z) = Ok (Some (mkResponse 304 "")) /\
  io_events (trace (snd (run 304%Z))) = [EvGet url 30] /\
  fst (run 600%Z) = Ok (Some (mkResponse 600 "")) /\
  io_events (trace (snd (run 600%Z))) = [EvGet url 30].
Proof. vm_compute. auto. Defined.

(** Two retries against a network that is down: three requests, two
    sleeps between them. *)
Lemma C3_witness :
  exists w' evs,
    _make_request (E:=env [overview] net_down no_faults 0) (config [overview])
      "https://docs.example.com/overview" None w0 = (Ok None, w') /\
    gets_done w' = 3 /\
    trace w' = (trace w0 ++ evs)%list /\
    io_events evs =
      [EvGet "https://docs.example.com/overview" 30; EvSleep 1;
       EvGet "https://docs.example.com/overview" 30; EvSleep 1;
       EvGet "https://docs.example.com/overview" 30].
Proof.
  apply (C3_retry_bound (E:=env [overview] net_down no_faults 0)
           (config [overview]) "https://docs.example.com/overview" None w0).
  - simpl. lia.
  - intros k _. reflexivity.
Defined.

(** C5 on a machine one hour ahead of UTC, at 12:00:00 UTC: the document
    is annotated in the stated order, but its last line reads
    13:00:00 UTC, the local time under the label UTC; the UTC clock reads
    12:00:00. *)
Theorem C5_timestamp_is_local_time :
  let E1 := env [overview] net_up no_faults 3600 in
  fst (_convert_to_markdown (E:=E1) (config [overview])
         "<main class='real'><h1>Hi</h1></main>" overview w0)
  = Ok ("# Overview" +:+ LF +:+ LF
        +:+ "Hi" +:+ LF +:+ "==" +:+ LF
        +:+ LF +:+ LF +:+ "---" +:+ LF +:+ LF
        +:+ "*Source: https://docs.example.com/overview*" +:+ LF
        +:+ "*Last updated: 2025-01-15 13:00:00 UTC*" +:+ LF) /\
  strftime_utc_label (gmtime (Env:=E1) (clock (Env:=E1) (clock_reads w0)))
  = "2025-01-15 12:00:00 UTC".
Proof. vm_compute. auto. Defined.

(** [--section ""]: a filter is given, and the index is written. *)
Lemma C6_empty_filter_writes_index :
  let E1 := env [overview] net_up no_faults 0 in
  let args := mkArgs "config.yaml" (Some "") false in
  arg_section args <> None /\
  fst (main (E:=E1) args w0) = 0%Z /\
  fs w0 !! "docs/README.md" = None /\
  is_Some (fs (snd (main (E:=E1) args w0)) !! "docs/README.md") /\
  In (EvLog INFO (MsgCreatedIndex "docs/README.md"))
     (trace (snd (main (E:=E1) args w0))).
Proof.
  intros E1 args. split; [discriminate|]. split; [by vm_compute|].
  split; [by vm_compute|]. split.
  - vm_compute. eauto.
  - vm_compute. tauto.
Defined.





(** The same run at noon and again later in the day. *)
Lemma C9_witness :
  let E1 := env [overview] net_up no_faults 0 in
  let E2 := with_clock E1 (fun k => (50000 + Z.of_nat k)%Z) calendar in
  let cfg := config [overview] in
  let run1 := process_sections (E:=E1) cfg (sections cfg) w0 in
  let run2 := process_sections (E:=E2) cfg (sections cfg) w0 in
  fst run1 = fst run2 /\
  forall p, file_agrees (fs w0 !! p) (fs (snd run1) !! p)
                        (fs w0 !! p) (fs (snd run2) !! p).
Proof.
  apply (C9_rerun_differs_in_timestamp_only
           (E:=env [overview] net_up no_faults 0) (config [overview])
           (fun k => (50000 + Z.of_nat k)%Z) calendar w0 w0).
  reflexivity.
Defined.

(** A configuration without sections, run without a filter. *)
Lemma C10_witness :
  let E1 := env [] net_up no_faults 0 in
  fst (scrape_all (E:=E1) (config []) None w0) = Raise ZeroDivisionError /\
  fst (main (E:=E1) (mkArgs "config.yaml" None false) w0) = 1%Z.
Proof.
  intros E1.
  destruct (C10_empty_run_divides_by_zero (E:=E1) (config []) None w0)
    as [_ (w' & Hrun & _)].
  - reflexivity.
  - reflexivity.
  - reflexivity.
  - split; [by rewrite Hrun|]. vm_compute. reflexivity.
Defined.

End Runs.

(** * Further properties of the code *)

Section Coverage.

Context {E : Env}.
Variable cfg : Config.

(** ** The fetcher: the attempt that ends the loop *)

Lemma make_request_loop_settles url r n :
  forall a j w,
    (a + Z.of_nat n <= r)%Z ->
    (forall k, gets_done w <= k < gets_done w + n ->
               request_fails (session_get k url)) ->
    ~ request_fails (session_get (gets_done w + n) url) ->
    wp (_make_request_loop cfg url r (seqZ a (Z.of_nat (S n + j))))
       (fun res w' =>
          res = attempt_result (session_get (gets_done w + n) url) /\
          gets_done w' = gets_done w + S n /\
          fs w' = fs w /\ stats w' = stats w /\
          exists evs,
            trace w' = (trace w ++ evs)%list /\
            io_events evs =
              (concat (replicate n
                 [EvGet url (timeout (scraping cfg));
                  EvSleep (delay_between_requests (scraping cfg))])
               ++ [EvGet url (timeout (scraping cfg))])%list) w.
Proof.
  induction n as [|n IH]; intros a j w Ha Hfail Hlast.
  - rewrite seqZ_cons by lia. simpl _make_request_loop.
    replace (gets_done w + 0) with (gets_done w) in * by lia.
    wp_log. apply wp_get_checked. simpl.
    destruct (session_get (gets_done w) url) as [resp|e]; simpl in *.
    + destruct (is_http_error resp); [done|]. wp_log.
      split; [done|]. split; [lia|]. split; [done|]. split; [done|].
      eexists. split; [by rewrite <- !app_assoc|]. done.
    + destruct (is_RequestException e); [done|].
      split; [done|]. split; [lia|]. split; [done|]. split; [done|].
      eexists. split; [by rewrite <- !app_assoc|]. done.
  - rewrite seqZ_cons by lia.
    replace (Z.pred (Z.of_nat (S (S n) + j))) with (Z.of_nat (S n + j)) by lia.
    simpl _make_request_loop.
    wp_log. apply wp_get_checked. simpl.
    assert (Hne : (a =? r)%Z = false) by (apply Z.eqb_neq; lia).
    pose proof (Hfail (gets_done w) ltac:(lia)) as Hnow.
    set (w1 := with_gets_done _ _).
    assert (Hrest : forall e,
      wp (if (a =? r)%Z
          then log ERROR (MsgFetchFailed url (r + 1) e) ;;; ret None
          else log WARNING (MsgAttemptFailed (a + 1) url e) ;;;
               sleep (delay_between_requests (scraping cfg)) ;;;
               _make_request_loop cfg url r (seqZ (Z.succ a) (Z.of_nat (S n + j))))
         (fun res w' =>
            res = attempt_result (session_get (gets_done w + S n) url) /\
            gets_done w' = gets_done w + S (S n) /\
            fs w' = fs w /\ stats w' = stats w /\
            exists evs,
              trace w' = (trace w ++ evs)%list /\
              io_events evs =
                (concat (replicate (S n)
                   [EvGet url (timeout (scraping cfg));
                    EvSleep (delay_between_requests (scraping cfg))])
                 ++ [EvGet url (timeout (scraping cfg))])%list) w1).
    { intros e. rewrite Hne. wp_log.
      eapply wp_mono.
      - apply IH; [lia| |].
        + intros k Hk. apply Hfail. simpl in Hk. lia.
        + match goal with
          | |- ~ request_fails (session_get ?k url) =>
              replace k with (gets_done w + S n) by (simpl; lia)
          end.
          exact Hlast.
      - simpl. intros res w' (-> & Hg & Hfs & Hst & evs & Htr & Hio).
        split; [f_equal; f_equal; simpl; lia|]. split; [simpl in Hg; lia|].
        split; [done|]. split; [done|].
        eexists (_ :: _ :: _ :: _ :: evs). split.
        + rewrite Htr. rewrite <- !app_assoc. reflexivity.
        + simpl. by rewrite Hio. }
    destruct (session_get (gets_done w) url) as [resp|e]; simpl in Hnow.
    + rewrite Hnow. simpl. apply Hrest.
    + rewrite Hnow. apply Hrest.
Qed.

Lemma make_request_settles url retries_arg n w :
  let r := match retries_arg with
           | None => retries (scraping cfg)
           | Some r => r
           end in
  (Z.of_nat n <= r)%Z ->
  (forall k, gets_done w <= k < gets_done w + n ->
             request_fails (session_get k url)) ->
  ~ request_fails (session_get (gets_done w + n) url) ->
  exists w' evs,
    _make_request cfg url retries_arg w
    = (attempt_result (session_get (gets_done w + n) url), w') /\
    gets_done w' = gets_done w + n + 1 /\
    fs w' = fs w /\ stats w' = stats w /\
    trace w' = (trace w ++ evs)%list /\
    io_events evs =
      (concat (replicate n
         [EvGet url (timeout (scraping cfg));
          EvSleep (delay_between_requests (scraping cfg))])
       ++ [EvGet url (timeout (scraping cfg))])%list.
Proof.
  intros r Hn Hfail Hlast.
  pose proof (make_request_loop_settles url r n 0%Z (Z.to_nat r - n) w
                ltac:(lia) Hfail Hlast) as H.
  unfold _make_request. fold r. unfold range.
  replace (r + 1)%Z with (Z.of_nat (S n + (Z.to_nat r - n))) by lia.
  destruct (_make_request_loop cfg url r _ w) as [res w'] eqn:Hrun.
  eapply wp_elim in H; [|exact Hrun].
  destruct H as (-> & Hg & Hfs & Hst & evs & Htr & Hio).
  exists w', evs. repeat split; try done. lia.
Qed.

(** X1. The fetch ends at the first attempt that does not fail at the
    network level.  After [n <= retries] failed attempts, an attempt that
    yields a response without an error status makes [_make_request] return
    that response, and an attempt that raises anything but a
    [RequestException] makes it raise that exception at once: in both
    cases after [n + 1] requests, each failed one followed by one sleep,
    and with files and statistics untouched. *)
Theorem X1_fetch_ends_at_first_settled_attempt url retries_arg n w :
  let r := match retries_arg with
           | None => retries (scraping cfg)
           | Some r => r
           end in
  (Z.of_nat n <= r)%Z ->
  (forall k, gets_done w <= k < gets_done w + n ->
             request_fails (session_get k url)) ->
  ~ request_fails (session_get (gets_done w + n) url) ->
  exists w' evs,
    _make_request cfg url retries_arg w
    = (attempt_result (session_get (gets_done w + n) url), w') /\
    gets_done w' = gets_done w + n + 1 /\
    fs w' = fs w /\ stats w' = stats w /\
    trace w' = (trace w ++ evs)%list /\
    io_events evs =
      (concat (replicate n
         [EvGet url (timeout (scraping cfg));
          EvSleep (delay_between_requests (scraping cfg))])
       ++ [EvGet url (timeout (scraping cfg))])%list.
Proof. intros r. by apply make_request_settles. Qed.

(** X2. With a negative [retries] the loop body never runs:
    [_make_request] issues no request, logs nothing and returns [None];
    so with a negative [retries] in the configuration every section is
    counted as failed without a single request. *)
Theorem X2_negative_retries_never_request url retries_arg w :
  let r := match retries_arg with
           | None => retries (scraping cfg)
           | Some r => r
           end in
  (r < 0)%Z ->
  _make_request cfg url retries_arg w = (Ok None, w) /\
  ((retries (scraping cfg) < 0)%Z ->
   forall section,
     exists w',
       scrape_section cfg section w = (Ok false, w') /\
       gets_done w' = gets_done w /\
       fs w' = fs w /\
       failed_scrapes (stats w') = S (failed_scrapes (stats w))).
Proof.
  intros r Hr.
  assert (Hnone : forall u arg w0,
    (match arg with None => retries (scraping cfg) | Some r0 => r0 end < 0)%Z ->
    _make_request cfg u arg w0 = (Ok None, w0)).
  { intros u arg w0 Hneg. unfold _make_request, range.
    by rewrite seqZ_nil by lia. }
  split; [by apply Hnone|].
  intros Hcfg section.
  destruct (scrape_section_spec cfg section w) as (w2 & Hfs & Hst & Hg & Hcase).
  rewrite (Hnone _ None) in Hcase, Hg by done. simpl in Hcase, Hg.
  eexists. split; [exact Hcase|]. simpl. by rewrite Hfs, Hst.
Qed.

(** ** The cleaner *)

(** X3. When no remove-selector matches anything in the document,
    [_clean_html] decomposes nothing and returns the document as it
    was. *)
Theorem X3_clean_html_without_matches soup :
  (forall selector, In selector (remove_elements (scraping cfg)) ->
                    select soup selector = []) ->
  _clean_html cfg soup = soup.
Proof.
  unfold _clean_html.
  induction (remove_elements (scraping cfg)) as [|selector rest IH];
    intros Hnone; simpl; [done|].
  rewrite (Hnone selector) by (by left). simpl.
  apply IH. intros sel Hin. apply Hnone. by right.
Qed.

(** ** One section, fetched at the first attempt *)

Lemma fetched_at_once section w resp :
  (0 <= retries (scraping cfg))%Z ->
  session_get (gets_done w) (section_url cfg section) = Ok resp ->
  is_http_error resp = false ->
  exists w1,
    _make_request cfg (base_url cfg +:+ url_suffix section) None
      (with_trace (trace w ++ [EvLog INFO (MsgScraping (name section))]) w)
    = (Ok (Some resp), w1) /\
    gets_done w1 = S (gets_done w).
Proof.
  intros Hr Hget Hok.
  destruct (make_request_settles (section_url cfg section) None 0
    (with_trace (trace w ++ [EvLog INFO (MsgScraping (name section))]) w))
    as (w1 & evs & Hrun & Hg & _).
  - simpl. lia.
  - intros k Hk. simpl in Hk. lia.
  - simpl. replace (gets_done w + 0) with (gets_done w) by lia.
    rewrite Hget. simpl. by rewrite Hok.
  - simpl in Hrun, Hg. replace (gets_done w + 0) with (gets_done w) in * by lia.
    rewrite Hget in Hrun. exists w1. split; [exact Hrun|lia].
Qed.

(** X4. What makes a section succeed.  When the first request answers
    without an error status, a content selector matches, the converter
    returns and the output file can be written, [scrape_section] returns
    [True] after that one request, counts one success, and the output file
    holds the converted fragment with its annotations and the timestamp of
    the local clock. *)
Theorem X4_section_success section w resp t converted :
  (0 <= retries (scraping cfg))%Z ->
  session_get (gets_done w) (section_url cfg section) = Ok resp ->
  is_http_error resp = false ->
  first_match (_clean_html cfg (BeautifulSoup (content resp)))
    (content_selectors (scraping cfg)) = Some t ->
  md (tag_str t) = Ok converted ->
  fs_fault (output_path cfg section) = NoFault ->
  exists w',
    scrape_section cfg section w = (Ok true, w') /\
    fs w' = <[output_path cfg section :=
                annotated_body cfg section converted
                +:+ timestamp_suffix cfg (localtime (clock (clock_reads w)))]> (fs w) /\
    successful_scrapes (stats w') = S (successful_scrapes (stats w)) /\
    failed_scrapes (stats w') = failed_scrapes (stats w) /\
    gets_done w' = S (gets_done w).
Proof.
  intros Hr Hget Hok Hmatch Hmd Hfault.
  destruct (fetched_at_once section w resp Hr Hget Hok) as (w1 & Hfetch & Hg1).
  destruct (scrape_section_spec cfg section w) as (w2 & Hfs & Hst & Hg & Hcase).
  rewrite Hfetch in Hcase, Hg. simpl in Hcase, Hg.
  rewrite Hok, Hmatch, Hmd in Hcase.
  pose proof (save_markdown_spec (output_path cfg section)
    (annotated_body cfg section converted
     +:+ timestamp_suffix cfg (localtime (clock (clock_reads w)))) w2) as Hs.
  unfold wp in Hs. rewrite <- Hcase in Hs.
  destruct (scrape_section cfg section w) as [res w']. simpl in Hs.
  destruct Hs as (Hg' & _ & _ & _ & Hs). rewrite Hfault in Hs.
  destruct Hs as (-> & Hw & Hsucc & Hfail).
  exists w'. split; [done|]. rewrite Hw, Hsucc, Hfail, Hfs, Hst.
  repeat split. congruence.
Qed.

(** X5. A page that was fetched but cannot be used is a counted failure
    that writes nothing: when no content selector matches, or when the
    converter raises an [Exception], [scrape_section] returns [False],
    counts one failure and leaves every file as it was. *)
Theorem X5_unusable_page_is_a_counted_failure section w resp :
  (0 <= retries (scraping cfg))%Z ->
  session_get (gets_done w) (section_url cfg section) = Ok resp ->
  is_http_error resp = false ->
  (first_match (_clean_html cfg (BeautifulSoup (content resp)))
     (content_selectors (scraping cfg)) = None \/
   exists t e,
     first_match (_clean_html cfg (BeautifulSoup (content resp)))
       (content_selectors (scraping cfg)) = Some t /\
     md (tag_str t) = Raise e /\ is_Exception e = true) ->
  exists w',
    scrape_section cfg section w = (Ok false, w') /\
    fs w' = fs w /\
    successful_scrapes (stats w') = successful_scrapes (stats w) /\
    failed_scrapes (stats w') = S (failed_scrapes (stats w)).
Proof.
  intros Hr Hget Hok Hbad.
  destruct (fetched_at_once section w resp Hr Hget Hok) as (w1 & Hfetch & Hg1).
  destruct (scrape_section_spec cfg section w) as (w2 & Hfs & Hst & Hg & Hcase).
  rewrite Hfetch in Hcase. simpl in Hcase. rewrite Hok in Hcase.
  assert (Hfailed : scrape_section cfg section w = (Ok false, snd (incr_failed w2))).
  { destruct Hbad as [Hnone|(t & e & Hmatch & Hmd & Hcls)].
    - by rewrite Hnone in Hcase.
    - by rewrite Hmatch, Hmd, Hcls in Hcase. }
  eexists. split; [exact Hfailed|]. simpl. by rewrite Hfs, Hst.
Qed.

(** ** Whole runs *)

Lemma print_statistics_returns w :
  total_sections (stats w) <> 0 ->
  exists w', _print_statistics w = (Ok tt, w') /\ fs w' = fs w /\ stats w' = stats w.
Proof.
  intros Htotal. unfold _print_statistics.
  erewrite bind_ok by reflexivity. simpl.
  destruct (total_sections (stats w)) as [|n] eqn:Hn; [done|]. simpl.
  eexists. split; [reflexivity|]. done.
Qed.

Lemma process_sections_total selected w w' :
  process_sections cfg selected w = (Ok tt, w') ->
  total_sections (stats w') = length selected.
Proof.
  intros Hrun. unfold process_sections in Hrun.
  apply bind_inv_ok in Hrun as ([] & w1 & Hset & Hrun).
  inversion Hset; subst w1. clear Hset.
  apply bind_inv_ok in Hrun as ([] & w2 & Hlog & Hrun).
  rewrite log_eq in Hlog. inversion Hlog; subst w2. clear Hlog.
  by apply scrape_loop_counts in Hrun as [Htot _].
Qed.

(** The run after the constructor, for an environment in which nothing
    but the handled failures can happen. *)
Lemma scrape_all_returns section_filter w :
  (forall k url e, session_get k url = Raise e -> is_RequestException e = true) ->
  (forall html e, md html = Raise e -> is_Exception e = true) ->
  (forall p e, fs_fault p = OpenFails e -> is_Exception e = true) ->
  (forall p n e, fs_fault p = WriteFails n e -> is_Exception e = true) ->
  (truthy section_filter = false ->
   fs_fault (index_path cfg) = NoFault /\ sections cfg <> []) ->
  exists w', scrape_all cfg section_filter w = (Ok tt, w').
Proof.
  intros Hnet Hmd Hopen Hwrite Hfull.
  assert (Hproc : forall selected w0,
    exists w1, process_sections cfg selected w0 = (Ok tt, w1)).
  { intros selected w0. unfold process_sections.
    erewrite bind_ok by reflexivity. erewrite bind_ok by apply log_eq.
    apply scrape_loop_returns. intros section w1.
    by apply scrape_section_returns. }
  unfold scrape_all, finalize.
  destruct (truthy section_filter) eqn:Hfilter; simpl.
  - destruct (select_sections cfg _) as [|s rest] eqn:Hsel; [by eexists|].
    destruct (Hproc (s :: rest) w) as (w1 & Hrun).
    erewrite bind_ok by exact Hrun. erewrite bind_ok by reflexivity.
    apply process_sections_total in Hrun.
    destruct (print_statistics_returns w1) as (w2 & Hstats & _).
    { by rewrite Hrun. }
    by exists w2.
  - destruct (Hfull eq_refl) as [Hidx Hsome].
    destruct (Hproc (sections cfg) w) as (w1 & Hrun).
    erewrite bind_ok by exact Hrun.
    apply process_sections_total in Hrun.
    destruct (create_index_spec cfg w1) as (w2 & Hci & Hst & _).
    rewrite Hidx in Hci. destruct Hci as (Hci & _).
    erewrite bind_ok by exact Hci.
    destruct (print_statistics_returns w2) as (w3 & Hstats & _).
    { rewrite Hst, Hrun. by destruct (sections cfg). }
    by exists w3.
Qed.

(** X6. The exit status does not reflect failed sections.  When the
    configuration loads, the output folder exists or can be created, the
    network raises nothing but [RequestException]s, the converter nothing
    but [Exception]s and file writes nothing but [Exception]s, and, for an
    unfiltered run, there is at least one section and the index file can
    be written, the process ends with exit status 0, however many sections
    failed. *)
Theorem X6_exit_status_ignores_failed_sections args w :
  read_yaml (arg_config args) = YamlLoaded cfg ->
  mkdir_fault (docs_folder (output cfg)) = None ->
  (forall k url e, session_get k url = Raise e -> is_RequestException e = true) ->
  (forall html e, md html = Raise e -> is_Exception e = true) ->
  (forall p e, fs_fault p = OpenFails e -> is_Exception e = true) ->
  (forall p n e, fs_fault p = WriteFails n e -> is_Exception e = true) ->
  (truthy (arg_section args) = false ->
   fs_fault (index_path cfg) = NoFault /\ sections cfg <> []) ->
  fst (main args w) = 0%Z.
Proof.
  intros Hyaml Hmkdir Hnet Hmd Hopen Hwrite Hfull.
  unfold main. erewrite bind_ok by (by apply init_loaded).
  edestruct (scrape_all_returns (arg_section args)) as (w' & Hrun); try done.
  by rewrite Hrun.
Qed.

(** X7. A configuration file that is missing or is not valid YAML ends the
    process with exit status 1 after one line on the console: nothing is
    logged, fetched or written, and the statistics are not touched. *)
Theorem X7_unusable_configuration_exits_1 args w text :
  (read_yaml (arg_config args) = YamlNotFound /\
   text = "Error: Configuration file '" +:+ arg_config args +:+ "' not found.") \/
  (exists msg,
     read_yaml (arg_config args) = YamlError msg /\
     text = "Error parsing configuration file: " +:+ msg) ->
  main args w = (1%Z, with_trace (trace w ++ [EvPrint text]) w).
Proof.
  intros [[Hyaml ->]|(msg & Hyaml & ->)];
    unfold main, __init__, _load_config; by rewrite Hyaml.
Qed.

(** ** A run while the network is down *)

Lemma make_request_down url w :
  (0 <= retries (scraping cfg))%Z ->
  (forall k u, request_fails (session_get k u)) ->
  fst (_make_request cfg url None w) = Ok None.
Proof.
  intros Hr Hdown.
  pose proof (make_request_loop_all_fail cfg url (retries (scraping cfg))
    (Z.to_nat (retries (scraping cfg))) 0%Z w ltac:(lia)
    (fun k _ => Hdown k url)) as H.
  unfold wp in H. unfold _make_request, range.
  replace (retries (scraping cfg) + 1)%Z
    with (Z.of_nat (S (Z.to_nat (retries (scraping cfg))))) by lia.
  by destruct H as [-> _].
Qed.

Lemma scrape_section_down section w :
  (0 <= retries (scraping cfg))%Z ->
  (forall k u, request_fails (session_get k u)) ->
  exists w',
    scrape_section cfg section w = (Ok false, w') /\
    fs w' = fs w /\
    total_sections (stats w') = total_sections (stats w) /\
    successful_scrapes (stats w') = successful_scrapes (stats w) /\
    failed_scrapes (stats w') = S (failed_scrapes (stats w)).
Proof.
  intros Hr Hdown.
  destruct (scrape_section_spec cfg section w) as (w2 & Hfs & Hst & Hg & Hcase).
  rewrite make_request_down in Hcase by done. simpl in Hcase.
  eexists. split; [exact Hcase|]. simpl. by rewrite Hfs, Hst.
Qed.

Lemma scrape_loop_down n todo :
  (0 <= retries (scraping cfg))%Z ->
  (forall k u, request_fails (session_get k u)) ->
  forall i w,
    exists w',
      scrape_loop cfg n i todo w = (Ok tt, w') /\
      fs w' = fs w /\
      total_sections (stats w') = total_sections (stats w) /\
      successful_scrapes (stats w') = successful_scrapes (stats w) /\
      failed_scrapes (stats w') = failed_scrapes (stats w) + length todo.
Proof.
  intros Hr Hdown.
  induction todo as [|section rest IH]; intros i w; simpl.
  - eexists. split; [reflexivity|]. repeat split. lia.
  - erewrite bind_ok by apply log_eq.
    destruct (scrape_section_down section
      (with_trace (trace w ++ [EvLog INFO (MsgProcessing i n (name section))]) w)
      Hr Hdown) as (w1 & Hsec & Hfs1 & Htot1 & Hsucc1 & Hfail1).
    erewrite bind_ok by exact Hsec.
    destruct (pause_eq (i <? n)%nat (delay_between_requests (scraping cfg)) w1)
      as (w2 & Hpause & Hfs2 & _).
    assert (Hst2 : stats w2 = stats w1).
    { destruct (i <? n)%nat; inversion Hpause; by subst. }
    erewrite bind_ok by exact Hpause.
    destruct (IH (S i) w2) as (w' & Hrun & Hfs & Htot & Hsucc & Hfail).
    exists w'. split; [exact Hrun|].
    rewrite Hfs, Htot, Hsucc, Hfail, Hst2, Hfs2, Hfs1, Htot1, Hsucc1, Hfail1.
    simpl. repeat split. lia.
Qed.

(** X8. A full run while the network is down still ends normally and still
    writes the index: every section is counted as failed, no section file
    is written, and the only file that changes is the index, which lists
    every configured section. *)
Theorem X8_run_with_network_down section_filter w :
  (0 <= retries (scraping cfg))%Z ->
  (forall k u, request_fails (session_get k u)) ->
  truthy section_filter = false ->
  fs_fault (index_path cfg) = NoFault ->
  sections cfg <> [] ->
  exists w' now,
    scrape_all cfg section_filter w = (Ok tt, w') /\
    fs w' = <[index_path cfg := index_text cfg now]> (fs w) /\
    total_sections (stats w') = length (sections cfg) /\
    successful_scrapes (stats w') = successful_scrapes (stats w) /\
    failed_scrapes (stats w') = failed_scrapes (stats w) + length (sections cfg).
Proof.
  intros Hr Hdown Hfilter Hidx Hsome.
  unfold scrape_all, finalize. rewrite Hfilter. simpl.
  destruct (scrape_loop_down (length (sections cfg)) (sections cfg) Hr Hdown 1
    (with_trace (trace w ++ [EvLog INFO (MsgStarting (length (sections cfg)))])
       (snd (set_total (length (sections cfg)) w))))
    as (w1 & Hrun & Hfs1 & Htot1 & Hsucc1 & Hfail1).
  simpl in Hfs1, Htot1, Hsucc1, Hfail1.
  rewrite <- (process_sections_eq cfg E) in Hrun.
  erewrite bind_ok by exact Hrun.
  destruct (create_index_spec cfg w1) as (w2 & Hci & Hst2 & _).
  rewrite Hidx in Hci. destruct Hci as (Hci & Hfs2 & _).
  erewrite bind_ok by exact Hci.
  destruct (print_statistics_returns w2) as (w3 & Hstats & Hfs3 & Hst3).
  { rewrite Hst2, Htot1. by destruct (sections cfg). }
  exists w3, (localtime (clock (clock_reads w1))).
  split; [exact Hstats|]. unfold index_text.
  rewrite Hfs3, Hfs2, Hfs1, Hst3, Hst2, Htot1, Hsucc1, Hfail1. done.
Qed.

(** ** What the stages of a section add to the trace *)

Section StageTrace.

Variable P : event -> Prop.
Hypothesis P_stage_log : forall ev, is_stage_log ev = true -> P ev.

Lemma emits_stage_log lv msg :
  is_stage_log (EvLog lv msg) = true -> emits P (log lv msg).
Proof. intros H. apply emits_log. by apply P_stage_log. Qed.

Lemma emits_stage_extract soup selectors :
  emits P (_extract_content_loop soup selectors).
Proof.
  induction selectors as [|sel rest IH]; simpl.
  - apply emits_bind; [by apply emits_stage_log|]. intros _. apply emits_ret.
  - destruct (select_one soup sel); [|done].
    apply emits_bind; [by apply emits_stage_log|]. intros _. apply emits_ret.
Qed.

Lemma emits_stage_convert html section :
  emits P (_convert_to_markdown cfg html section).
Proof.
  apply emits_silent. intros w.
  pose proof (convert_to_markdown_spec cfg html section w) as H.
  unfold wp in H. tauto.
Qed.

Lemma emits_stage_save path markdown : emits P (save_markdown path markdown).
Proof.
  unfold save_markdown. apply emits_try_except.
  - apply emits_bind.
    { apply emits_silent. intros w. unfold write_text.
      by destruct (fs_fault path). }
    intros _. apply emits_bind; [by apply emits_stage_log|]. intros _.
    apply emits_bind; [by apply emits_silent|]. intros _. apply emits_ret.
  - intros e. apply emits_bind; [by apply emits_stage_log|]. intros _.
    apply emits_bind; [by apply emits_silent|]. intros _. apply emits_ret.
Qed.

(** Once the fetch is over, a section adds only stage log records. *)
Lemma scrape_section_after_fetch section w fetched w1 :
  _make_request cfg (base_url cfg +:+ url_suffix section) None
    (with_trace (trace w ++ [EvLog INFO (MsgScraping (name section))]) w)
  = (fetched, w1) ->
  extends P w1 (snd (scrape_section cfg section w)).
Proof.
  intros Hfetch. unfold scrape_section.
  erewrite bind_ok by apply log_eq.
  destruct fetched as [[resp|]|e].
  - erewrite bind_ok by exact Hfetch.
    match goal with |- extends P w1 (snd (?m w1)) =>
      assert (H : emits P m); [|apply H] end.
    apply emits_if.
    { apply emits_bind; [by apply emits_silent|]. intros _. apply emits_ret. }
    apply emits_bind; [apply emits_stage_extract|]. intros [t|].
    + apply emits_bind.
      * apply emits_try_except.
        -- apply emits_bind; [apply emits_stage_convert|]. intros ?.
           apply emits_ret.
        -- intros e. apply emits_bind; [by apply emits_stage_log|]. intros _.
           apply emits_bind; [by apply emits_silent|]. intros _. apply emits_ret.
      * intros [markdown|]; [apply emits_stage_save|apply emits_ret].
    + apply emits_bind; [by apply emits_stage_log|]. intros _.
      apply emits_bind; [by apply emits_silent|]. intros _. apply emits_ret.
  - erewrite bind_ok by exact Hfetch. by apply extends_refl.
  - erewrite bind_raise by exact Hfetch. by apply extends_refl.
Qed.

Hypothesis P_io : forall ev, is_io ev = true -> P ev.

Lemma emits_stage_fetch url r attempts :
  emits P (_make_request_loop cfg url r attempts).
Proof.
  induction attempts as [|attempt rest IH]; simpl; [apply emits_ret|].
  apply emits_bind; [by apply emits_stage_log|]. intros _.
  apply emits_try_except.
  - apply emits_bind; [|intros ?; apply emits_ret].
    intros w. unfold get_checked.
    exists [EvGet url (timeout (scraping cfg))]. split.
    + destruct (session_get (gets_done w) url) as [r0|e]; [|done].
      by destruct (is_http_error r0).
    + constructor; [by apply P_io|done].
  - intros e. apply emits_if.
    + apply emits_bind; [by apply emits_stage_log|]. intros _. apply emits_ret.
    + apply emits_bind; [by apply emits_stage_log|]. intros _.
      apply emits_bind; [|done]. apply emits_sleep. by apply P_io.
Qed.

End StageTrace.

(** ** The order in which sections are scraped *)

Lemma scraped_app evs1 evs2 :
  scraped (evs1 ++ evs2) = (scraped evs1 ++ scraped evs2)%list.
Proof.
  induction evs1 as [|ev rest IH]; [done|].
  destruct ev as [[] []| | |]; simpl; by rewrite ?IH.
Qed.

Lemma scraped_none evs :
  Forall (fun ev => is_announcement ev = false) evs -> scraped evs = [].
Proof.
  induction 1 as [|ev rest Hev _ IH]; [done|].
  destruct ev as [[] []| | |]; simpl in *; done.
Qed.

Lemma stage_log_not_announcement ev :
  is_stage_log ev = true -> is_announcement ev = false.
Proof. by destruct ev as [[] []| | |]. Qed.

Lemma io_not_announcement ev : is_io ev = true -> is_announcement ev = false.
Proof. by destruct ev as [[] []| | |]. Qed.

Lemma scrape_section_announces section w :
  exists evs,
    trace (snd (scrape_section cfg section w)) = (trace w ++ evs)%list /\
    scraped evs = [name section].
Proof.
  destruct (_make_request cfg (base_url cfg +:+ url_suffix section) None
    (with_trace (trace w ++ [EvLog INFO (MsgScraping (name section))]) w))
    as [fetched w1] eqn:Hfetch.
  pose proof (emits_stage_fetch _ stage_log_not_announcement io_not_announcement
    (base_url cfg +:+ url_suffix section) (retries (scraping cfg))
    (range (retries (scraping cfg) + 1))
    (with_trace (trace w ++ [EvLog INFO (MsgScraping (name section))]) w))
    as (evs1 & Htr1 & Hevs1).
  change (_make_request_loop cfg _ _ _ _)
    with (_make_request cfg (base_url cfg +:+ url_suffix section) None
            (with_trace (trace w ++ [EvLog INFO (MsgScraping (name section))]) w))
    in Htr1.
  rewrite Hfetch in Htr1. simpl in Htr1.
  destruct (scrape_section_after_fetch _ stage_log_not_announcement
    section w fetched w1 Hfetch) as (evs2 & Htr2 & Hevs2).
  exists ([EvLog INFO (MsgScraping (name section))] ++ evs1 ++ evs2)%list.
  split.
  - rewrite Htr2, Htr1. by rewrite <- !app_assoc.
  - rewrite !scraped_app, (scraped_none evs1), (scraped_none evs2) by done.
    done.
Qed.

Lemma scrape_loop_announces n todo :
  forall i w w',
    scrape_loop cfg n i todo w = (Ok tt, w') ->
    exists evs,
      trace w' = (trace w ++ evs)%list /\
      scraped evs = List.map name todo.
Proof.
  induction todo as [|section rest IH]; intros i w w' Hrun; simpl in Hrun.
  - inversion Hrun; subst. exists []. by rewrite app_nil_r.
  - apply bind_inv_ok in Hrun as ([] & w0 & Hlog & Hrun).
    rewrite log_eq in Hlog. inversion Hlog; subst w0. clear Hlog.
    apply bind_inv_ok in Hrun as (b & w1 & Hsec & Hrun).
    destruct (scrape_section_announces section
      (with_trace (trace w ++ [EvLog INFO (MsgProcessing i n (name section))]) w))
      as (evs1 & Htr1 & Hs1).
    rewrite Hsec in Htr1. simpl in Htr1.
    apply bind_inv_ok in Hrun as ([] & w2 & Hpause & Hrun).
    assert (Hw2 : exists evs2, trace w2 = (trace w1 ++ evs2)%list /\ scraped evs2 = []).
    { destruct (i <? n)%nat; inversion Hpause; subst.
      - by eexists [_].
      - exists []. by rewrite app_nil_r. }
    destruct Hw2 as (evs2 & Htr2 & Hs2).
    apply IH in Hrun as (evs3 & Htr3 & Hs3).
    exists ([EvLog INFO (MsgProcessing i n (name section))]
            ++ evs1 ++ evs2 ++ evs3)%list.
    split.
    + rewrite Htr3, Htr2, Htr1. by rewrite <- !app_assoc.
    + rewrite !scraped_app, Hs1, Hs2, Hs3. done.
Qed.

Lemma finalize_announces_nothing section_filter w :
  exists evs,
    trace (snd (finalize cfg section_filter w)) = (trace w ++ evs)%list /\
    scraped evs = [].
Proof.
  assert (H : emits (fun ev => is_announcement ev = false)
                (finalize cfg section_filter)).
  { unfold finalize. apply emits_bind.
    - apply emits_if; [|apply emits_ret]. intros w0.
      destruct (create_index_spec cfg w0) as (w1 & Hci & _).
      destruct (fs_fault (index_path cfg)).
      + destruct Hci as (-> & _ & Htr). simpl. eexists [_].
        split; [exact Htr|]. by constructor.
      + destruct Hci as (-> & _ & Htr). by apply extends_refl.
      + destruct Hci as (-> & _ & Htr). by apply extends_refl.
    - intros _. unfold _print_statistics.
      apply emits_bind; [by apply emits_silent|]. intros end_time w0.
      match goal with |- extends _ _ (snd (?m w0)) =>
        assert (H : emits (fun ev => is_announcement ev = false) m); [|apply H]
      end.
      repeat (apply emits_bind; [by apply emits_log|intros _]).
      apply emits_bind.
      { apply emits_if; [apply emits_raise|by apply emits_log]. }
      intros _.
      repeat (apply emits_bind; [by apply emits_log|intros _]).
      by apply emits_log. }
  destruct (H w) as (evs & Htr & Hevs).
  exists evs. split; [exact Htr|]. by apply scraped_none.
Qed.

(** X9. A run that ends normally has scraped every selected section once,
    in the order of the configuration: the sections announced in the trace
    are the configured ones for an unfiltered run, and for a filtered run
    every configured section whose name is the filter, all of them when
    several share the name. *)
Theorem X9_sections_are_scraped_in_configured_order section_filter w w' :
  scrape_all cfg section_filter w = (Ok tt, w') ->
  exists evs,
    trace w' = (trace w ++ evs)%list /\
    scraped evs =
      List.map name
        (if truthy section_filter
         then List.filter
                (fun s => String.eqb (name s) (default "" section_filter))
                (sections cfg)
         else sections cfg).
Proof.
  intros Hrun. unfold scrape_all in Hrun.
  assert (Hboth : forall selected,
    (process_sections cfg selected ;;; finalize cfg section_filter) w = (Ok tt, w') ->
    exists evs, trace w' = (trace w ++ evs)%list /\ scraped evs = List.map name selected).
  { intros selected Hsel.
    apply bind_inv_ok in Hsel as ([] & w1 & Hproc & Hfin).
    rewrite (process_sections_eq cfg E) in Hproc.
    apply scrape_loop_announces in Hproc as (evs1 & Htr1 & Hs1).
    simpl in Htr1.
    destruct (finalize_announces_nothing section_filter w1) as (evs2 & Htr2 & Hs2).
    rewrite Hfin in Htr2. simpl in Htr2.
    exists ([EvLog INFO (MsgStarting (length selected))] ++ evs1 ++ evs2)%list.
    split.
    - rewrite Htr2, Htr1. by rewrite <- !app_assoc.
    - rewrite !scraped_app, Hs1, Hs2. simpl. by rewrite app_nil_r. }
  destruct (truthy section_filter).
  - fold (select_sections cfg (default "" section_filter)).
    destruct (select_sections cfg _) as [|s rest] eqn:Hsel.
    + rewrite log_eq in Hrun. inversion Hrun; subst. by eexists [_].
    + by apply Hboth.
  - by apply Hboth.
Qed.

(** ** Requests and sleeps of a run *)

Lemma io_events_append evs1 evs2 :
  io_events (evs1 ++ evs2) = (io_events evs1 ++ io_events evs2)%list.
Proof. unfold io_events. apply List.filter_app. Qed.

Lemma io_events_of_logs evs :
  Forall (fun ev => is_stage_log ev = true) evs -> io_events evs = [].
Proof.
  induction 1 as [|ev rest Hev _ IH]; [done|].
  destruct ev as [[] []| | |]; simpl in *; done.
Qed.

Lemma scrape_section_one_request section w :
  (0 <= retries (scraping cfg))%Z ->
  ~ request_fails (session_get (gets_done w) (section_url cfg section)) ->
  exists evs,
    trace (snd (scrape_section cfg section w)) = (trace w ++ evs)%list /\
    io_events evs = [EvGet (section_url cfg section) (timeout (scraping cfg))].
Proof.
  intros Hr Hanswer.
  destruct (make_request_settles (section_url cfg section) None 0
    (with_trace (trace w ++ [EvLog INFO (MsgScraping (name section))]) w))
    as (w1 & evs1 & Hfetch & _ & _ & _ & Htr1 & Hio1).
  - simpl. lia.
  - intros k Hk. simpl in Hk. lia.
  - simpl. by replace (gets_done w + 0) with (gets_done w) by lia.
  - destruct (scrape_section_after_fetch (fun ev => is_stage_log ev = true)
      (fun ev H => H) section w _ w1 Hfetch) as (evs2 & Htr2 & Hevs2).
    exists ([EvLog INFO (MsgScraping (name section))] ++ evs1 ++ evs2)%list.
    split.
    + rewrite Htr2, Htr1. simpl. by rewrite <- !app_assoc.
    + rewrite !io_events_append, Hio1, (io_events_of_logs evs2) by done.
      done.
Qed.

Lemma scrape_loop_requests n todo :
  (0 <= retries (scraping cfg))%Z ->
  (forall k u, ~ request_fails (session_get k u)) ->
  forall i w w',
    i + length todo = S n ->
    scrape_loop cfg n i todo w = (Ok tt, w') ->
    exists evs,
      trace w' = (trace w ++ evs)%list /\
      io_events evs =
        interleave (EvSleep (delay_between_requests (scraping cfg)))
          (List.map (fun s => EvGet (section_url cfg s) (timeout (scraping cfg)))
                    todo).
Proof.
  intros Hr Hanswer.
  induction todo as [|section rest IH]; intros i w w' Hi Hrun; simpl in Hrun.
  - inversion Hrun; subst. exists []. by rewrite app_nil_r.
  - apply bind_inv_ok in Hrun as ([] & w0 & Hlog & Hrun).
    rewrite log_eq in Hlog. inversion Hlog; subst w0. clear Hlog.
    apply bind_inv_ok in Hrun as (b & w1 & Hsec & Hrun).
    destruct (scrape_section_one_request section
      (with_trace (trace w ++ [EvLog INFO (MsgProcessing i n (name section))]) w)
      Hr (Hanswer _ _)) as (evs1 & Htr1 & Hio1).
    rewrite Hsec in Htr1. simpl in Htr1.
    apply bind_inv_ok in Hrun as ([] & w2 & Hpause & Hrun).
    simpl in Hi.
    apply IH in Hrun as (evs3 & Htr3 & Hio3); [|lia].
    destruct rest as [|next rest].
    + assert (Hlast : (i <? n)%nat = false) by (apply Nat.ltb_ge; simpl in Hi; lia).
      rewrite Hlast in Hpause. inversion Hpause; subst w2.
      exists ([EvLog INFO (MsgProcessing i n (name section))] ++ evs1 ++ evs3)%list.
      split.
      * rewrite Htr3, Htr1. by rewrite <- !app_assoc.
      * rewrite !io_events_append, Hio1, Hio3. done.
    + assert (Hmore : (i <? n)%nat = true) by (apply Nat.ltb_lt; simpl in Hi; lia).
      rewrite Hmore in Hpause. inversion Hpause; subst w2.
      exists ([EvLog INFO (MsgProcessing i n (name section))] ++ evs1
              ++ [EvSleep (delay_between_requests (scraping cfg))] ++ evs3)%list.
      split.
      * rewrite Htr3. simpl. rewrite Htr1. by rewrite <- !app_assoc.
      * rewrite !io_events_append, Hio1, Hio3. done.
Qed.

(** X10. When every request is answered at the first attempt, a run that
    gets through its sections has issued exactly one request per selected
    section, in order, and has slept [delay_between_requests] between two
    consecutive sections and not after the last one. *)
Theorem X10_one_request_per_section selected w w' :
  (0 <= retries (scraping cfg))%Z ->
  (forall k u, ~ request_fails (session_get k u)) ->
  process_sections cfg selected w = (Ok tt, w') ->
  exists evs,
    trace w' = (trace w ++ evs)%list /\
    io_events evs =
      interleave (EvSleep (delay_between_requests (scraping cfg)))
        (List.map (fun s => EvGet (section_url cfg s) (timeout (scraping cfg)))
                  selected).
Proof.
  intros Hr Hanswer Hrun.
  rewrite (process_sections_eq cfg E) in Hrun.
  apply scrape_loop_requests in Hrun as (evs & Htr & Hio); [|done..|simpl; lia].
  simpl in Htr.
  exists ([EvLog INFO (MsgStarting (length selected))] ++ evs)%list. split.
  - rewrite Htr. by rewrite <- !app_assoc.
  - by rewrite io_events_append.
Qed.

(** ** What a filtered run leaves alone *)

(** X12. A run filtered to a section name changes no file except the
    output files of the configured sections with that name, however it
    ends: the files of the other sections and the index file stay as they
    were. *)
Theorem X12_filtered_run_leaves_other_files section_filter w p :
  truthy section_filter = true ->
  Forall (fun s => name s = default "" section_filter -> p <> output_path cfg s)
         (sections cfg) ->
  fs (snd (scrape_all cfg section_filter w)) !! p = fs w !! p.
Proof.
  intros Hfilter Hp. unfold scrape_all, finalize. rewrite Hfilter. simpl.
  assert (Hsel : Forall (fun s => p <> output_path cfg s)
                   (select_sections cfg (default "" section_filter))).
  { apply Forall_forall. intros s Hin.
    apply list_elem_of_In, filter_In in Hin as [Hin Heq].
    rewrite Forall_forall in Hp. apply Hp; [by apply list_elem_of_In|].
    by apply String.eqb_eq. }
  destruct (select_sections cfg _) as [|s rest] eqn:Hsome; [done|].
  pose proof (scrape_loop_other_files cfg (length (s :: rest)) (s :: rest) p Hsel 1
    (with_trace (trace w ++ [EvLog INFO (MsgStarting (length (s :: rest)))])
       (snd (set_total (length (s :: rest)) w)))) as Hloop.
  rewrite <- (process_sections_eq cfg E) in Hloop. simpl fs in Hloop.
  destruct (process_sections cfg (s :: rest) w) as [[[]|e] w1] eqn:Hrun.
  - erewrite bind_ok by exact Hrun. erewrite bind_ok by reflexivity.
    by rewrite print_statistics_fs.
  - erewrite bind_raise by exact Hrun. done.
Qed.

(** ** An interrupt during the first request *)

Lemma scrape_section_escapes section w e :
  (0 <= retries (scraping cfg))%Z ->
  session_get (gets_done w) (section_url cfg section) = Raise e ->
  is_RequestException e = false ->
  exists w',
    scrape_section cfg section w = (Raise e, w') /\
    fs w' = fs w /\ stats w' = stats w /\ gets_done w' = S (gets_done w).
Proof.
  intros Hr Hget Hcls.
  destruct (make_request_settles (section_url cfg section) None 0
    (with_trace (trace w ++ [EvLog INFO (MsgScraping (name section))]) w))
    as (w1 & evs & Hfetch & Hg1 & _).
  - simpl. lia.
  - intros k Hk. simpl in Hk. lia.
  - simpl. replace (gets_done w + 0) with (gets_done w) by lia.
    rewrite Hget. simpl. by rewrite Hcls.
  - simpl in Hfetch, Hg1.
    replace (gets_done w + 0) with (gets_done w) in * by lia.
    rewrite Hget in Hfetch. simpl in Hfetch.
    destruct (scrape_section_spec cfg section w) as (w2 & Hfs & Hst & Hg & Hcase).
    unfold section_url in Hfetch. rewrite Hfetch in Hcase, Hg.
    simpl in Hcase, Hg.
    exists w2. split; [exact Hcase|]. repeat split; try done. lia.
Qed.

(** X13. When [session.get] raises [KeyboardInterrupt] at the first
    request of an unfiltered run, nothing catches it before [main]: the
    process prints that scraping was interrupted and ends with exit status
    1 after that one request, with no section counted, no file written and
    no index. *)
Theorem X13_interrupt_during_first_request args w section rest :
  read_yaml (arg_config args) = YamlLoaded cfg ->
  mkdir_fault (docs_folder (output cfg)) = None ->
  truthy (arg_section args) = false ->
  sections cfg = section :: rest ->
  (0 <= retries (scraping cfg))%Z ->
  session_get (gets_done w) (section_url cfg section) = Raise KeyboardInterrupt ->
  exists w',
    main args w = (1%Z, w') /\
    fs w' = fs w /\
    gets_done w' = S (gets_done w) /\
    successful_scrapes (stats w') = 0 /\
    failed_scrapes (stats w') = 0 /\
    last (trace w') = Some (EvPrint (LF +:+ "Scraping interrupted by user")).
Proof.
  intros Hyaml Hmkdir Hfilter Hsec Hr Hget.
  unfold main. erewrite bind_ok by (by apply init_loaded).
  unfold scrape_all. rewrite Hfilter, Hsec.
  set (w0 := with_stats _ _).
  destruct (scrape_section_escapes section
    (with_trace
       (trace (with_trace
                 (trace (snd (set_total (length (section :: rest)) w0))
                  ++ [EvLog INFO (MsgStarting (length (section :: rest)))])
                 (snd (set_total (length (section :: rest)) w0)))
        ++ [EvLog INFO (MsgProcessing 1 (length (section :: rest)) (name section))])
       (with_trace
          (trace (snd (set_total (length (section :: rest)) w0))
           ++ [EvLog INFO (MsgStarting (length (section :: rest)))])
          (snd (set_total (length (section :: rest)) w0))))
    KeyboardInterrupt Hr Hget eq_refl) as (w1 & Hrun & Hfs & Hst & Hg).
  assert (Hproc : process_sections cfg (section :: rest) w0
                  = (Raise KeyboardInterrupt, w1)).
  { rewrite process_sections_eq. simpl scrape_loop.
    erewrite bind_ok by apply log_eq.
    erewrite bind_raise by exact Hrun. reflexivity. }
  erewrite bind_raise by exact Hproc.
  eexists. split; [reflexivity|].
  simpl. rewrite Hfs, Hst, Hg. simpl. repeat split.
  by rewrite last_snoc.
Qed.

End Coverage.

(** ** A later run without timestamps *)

Section Reruns.

Context {E : Env}.
Variable cfg : Config.
Variable clock2 : nat -> Z.
Variable localtime2 : Z -> DateTime.

Let E2 : Env := with_clock E clock2 localtime2.

Hypothesis no_timestamp : get_flag (add_timestamp (output cfg)) = false.







End Reruns.

(** ** More concrete runs *)

Module MoreRuns.

Import Demo Samples.

(** One timeout, then an answer: two requests and one sleep. *)
Lemma X1_witness :
  exists w' evs,
    _make_request (E:=env [overview] net_flaky no_faults 0) (config [overview])
      "https://docs.example.com/overview" None w0
    = (Ok (Some (mkResponse 200 page)), w') /\
    gets_done w' = 2 /\
    fs w' = fs w0 /\ stats w' = stats w0 /\
    trace w' = (trace w0 ++ evs)%list /\
    io_events evs =
      [EvGet "https://docs.example.com/overview" 30; EvSleep 1;
       EvGet "https://docs.example.com/overview" 30].
Proof.
  apply (X1_fetch_ends_at_first_settled_attempt
           (E:=env [overview] net_flaky no_faults 0) (config [overview])
           "https://docs.example.com/overview" None 1 w0).
  - simpl. lia.
  - intros k Hk. simpl in Hk. assert (k = 0) as -> by lia. reflexivity.
  - simpl. discriminate.
Defined.

Lemma X2_witness :
  let cfg := config_with [overview] (-1) ["nav"] true in
  let E1 := env [overview] net_up no_faults 0 in
  _make_request (E:=E1) cfg "https://docs.example.com/overview" None w0
  = (Ok None, w0) /\
  exists w',
    scrape_section (E:=E1) cfg overview w0 = (Ok false, w') /\
    gets_done w' = 0.
Proof.
  intros cfg E1.
  destruct (X2_negative_retries_never_request (E:=E1) cfg
              "https://docs.example.com/overview" None w0) as [Hfetch Hsection].
  - simpl. lia.
  - split; [exact Hfetch|].
    destruct (Hsection ltac:(simpl; lia) overview) as (w' & Hrun & Hg & _).
    exists w'. split; [exact Hrun|exact Hg].
Defined.

Lemma X3_witness :
  _clean_html (E:=env [overview] net_up no_faults 0)
    (config_with [overview] 2 ["aside"; "footer"] true) (parse page)
  = parse page.
Proof.
  apply (X3_clean_html_without_matches (E:=env [overview] net_up no_faults 0)
           (config_with [overview] 2 ["aside"; "footer"] true) (parse page)).
  intros selector [<-|[<-|[]]]; reflexivity.
Defined.

Lemma X4_witness :
  exists w',
    scrape_section (E:=env [overview] net_up no_faults 0) (config [overview])
      overview w0 = (Ok true, w') /\
    fs w' !! "docs/overview.md"
    = Some (annotated_body (config [overview]) overview
              ("Hi" +:+ LF +:+ "==" +:+ LF)
            +:+ "*Last updated: 2025-01-15 12:00:00 UTC*" +:+ LF) /\
    successful_scrapes (stats w') = 1.
Proof.
  destruct (X4_section_success (E:=env [overview] net_up no_faults 0)
              (config [overview]) overview w0 (mkResponse 200 page)
              (".real", "<main class='real'><h1>Hi</h1></main>")
              ("Hi" +:+ LF +:+ "==" +:+ LF))
    as (w' & Hrun & Hfs & Hsucc & _); try reflexivity.
  - simpl. lia.
  - exists w'. split; [exact Hrun|]. rewrite Hfs, Hsucc.
    split; [|reflexivity]. by rewrite lookup_insert_eq.
Defined.

Lemma X5_witness :
  exists w',
    scrape_section (E:=env [overview] net_moved no_faults 0) (config [overview])
      overview w_old = (Ok false, w') /\
    fs w' = fs w_old /\
    failed_scrapes (stats w') = 1.
Proof.
  destruct (X5_unusable_page_is_a_counted_failure
              (E:=env [overview] net_moved no_faults 0) (config [overview])
              overview w_old (mkResponse 200 "<p>moved</p>"))
    as (w' & Hrun & Hfs & _ & Hfail); try reflexivity.
  - simpl. lia.
  - by left.
  - exists w'. by rewrite Hfail.
Defined.

(** Both sections fail and the process still ends with status 0. *)
Lemma X6_witness :
  fst (main (E:=env [overview; hooks] net_down no_faults 0)
         (mkArgs "config.yaml" None false) w0) = 0%Z.
Proof.
  apply (X6_exit_status_ignores_failed_sections
           (E:=env [overview; hooks] net_down no_faults 0)
           (config [overview; hooks])).
  - reflexivity.
  - reflexivity.
  - intros k url e [= <-]. reflexivity.
  - intros html e. simpl. unfold to_markdown.
    by destruct (String.eqb html _).
  - intros p e. discriminate.
  - intros p n e. discriminate.
  - intros _. split; [reflexivity|discriminate].
Defined.

Lemma X7_witness :
  main (E:=env [overview] net_up no_faults 0)
    (mkArgs "missing.yaml" None false) w0
  = (1%Z,
     with_trace
       [EvPrint "Error: Configuration file 'missing.yaml' not found."] w0).
Proof.
  apply (X7_unusable_configuration_exits_1
           (E:=env [overview] net_up no_faults 0) (mkArgs "missing.yaml" None false)
           w0 "Error: Configuration file 'missing.yaml' not found.").
  left. split; reflexivity.
Defined.

Lemma X8_witness :
  exists w' now,
    scrape_all (E:=env [overview; hooks] net_down no_faults 0)
      (config [overview; hooks]) None w0 = (Ok tt, w') /\
    fs w' = {[ "docs/README.md" := index_text (config [overview; hooks]) now ]} /\
    failed_scrapes (stats w') = 2.
Proof.
  destruct (X8_run_with_network_down
              (E:=env [overview; hooks] net_down no_faults 0)
              (config [overview; hooks]) None w0)
    as (w' & now & Hrun & Hfs & _ & _ & Hfail); try reflexivity.
  - simpl. lia.
  - discriminate.
  - exists w', now. split; [exact Hrun|]. split; [exact Hfs|exact Hfail].
Defined.

(** Two sections share the name [overview]: the filtered run scrapes
    both. *)
Lemma X9_witness :
  let cfg := config [overview; hooks; overview] in
  let E1 := env [overview; hooks; overview] net_up no_faults 0 in
  exists evs,
    trace (snd (scrape_all (E:=E1) cfg (Some "overview") w0))
    = (trace w0 ++ evs)%list /\
    scraped evs = ["overview"; "overview"].
Proof.
  intros cfg E1.
  apply (X9_sections_are_scraped_in_configured_order (E:=E1) cfg
           (Some "overview") w0).
  vm_compute. reflexivity.
Defined.

Lemma X10_witness :
  let cfg := config [overview; hooks] in
  let E1 := env [overview; hooks] net_up no_faults 0 in
  exists evs,
    trace (snd (process_sections (E:=E1) cfg [overview; hooks] w0))
    = (trace w0 ++ evs)%list /\
    io_events evs =
      [EvGet "https://docs.example.com/overview" 30; EvSleep 1;
       EvGet "https://docs.example.com/hooks" 30].
Proof.
  intros cfg E1.
  apply (X10_one_request_per_section (E:=E1) cfg [overview; hooks] w0).
  - simpl. lia.
  - intros k u. simpl. discriminate.
  - vm_compute. reflexivity.
Defined.


(** [--section overview] leaves [docs/hooks.md] and the index alone. *)
Lemma X12_witness :
  let cfg := config [overview; hooks] in
  let E1 := env [overview; hooks] net_up no_faults 0 in
  fs (snd (scrape_all (E:=E1) cfg (Some "overview") w_old)) !! "docs/hooks.md"
  = fs w_old !! "docs/hooks.md" /\
  fs (snd (scrape_all (E:=E1) cfg (Some "overview") w_old)) !! "docs/README.md"
  = fs w_old !! "docs/README.md".
Proof.
  intros cfg E1. split.
  - apply (X12_filtered_run_leaves_other_files (E:=E1) cfg (Some "overview")
             w_old "docs/hooks.md"); [reflexivity|].
    repeat constructor; simpl; intros; discriminate.
  - apply (X12_filtered_run_leaves_other_files (E:=E1) cfg (Some "overview")
             w_old "docs/README.md"); [reflexivity|].
    repeat constructor; simpl; intros; discriminate.
Defined.

Lemma X13_witness :
  exists w',
    main (E:=env [overview; hooks] net_interrupted no_faults 0)
      (mkArgs "config.yaml" None false) w_old = (1%Z, w') /\
    fs w' = fs w_old /\
    gets_done w' = 1 /\
    successful_scrapes (stats w') = 0 /\
    failed_scrapes (stats w') = 0 /\
    last (trace w') = Some (EvPrint (LF +:+ "Scraping interrupted by user")).
Proof.
  apply (X13_interrupt_during_first_request
           (E:=env [overview; hooks] net_interrupted no_faults 0)
           (config [overview; hooks]) (mkArgs "config.yaml" None false)
           w_old overview [hooks]); try reflexivity.
  simpl. lia.
Defined.

End MoreRuns.
